(** * sc2shp: the Storage Connect GPS packet converter

    A shallow embedding of [parse_data] (sc2shp.py) and the properties of
    it that the specification states.

    The program is one function.  It checks the two file paths, loads a
    JSON document, turns every packet into a small data frame (or rejects
    it), concatenates the frames, parses the timestamps, attaches point
    geometry, prints a per-user report and writes a GeoPackage.

    Modelling choices.
    - Console output and the call of the file writer are recorded in a
      trace; a computation is a trace together with either a value or the
      exception it raised.  [exit(n)] raises [SystemExit n], as in Python.
    - A packet is a JSON object read through six keys.  Each key may be
      absent; a present key holds the type the input format gives it
      (a string, or a sequence of strings).
    - Python's [float], [int], pandas' [to_datetime] and the sort behind
      [sort_values] are library code: they are fields of a [Library]
      record over which every definition and theorem is parametric.
      [Reference.library] is one instance, used to run the model.
    - Floating point numbers are the kernel's binary64 numbers.
    - Not modelled: a file that exists and is not a JSON document with a
      [packets] list, packet values of other JSON types, and failures of
      the writer other than [DriverIOError]. *)

From Stdlib Require Import ZArith List String Ascii Bool Arith Lia.
From Stdlib Require Import PrimFloat Uint63 Permutation Sorted.
Import ListNotations.

Set Warnings "-inexact-float".
Local Open Scope string_scope.
Local Open Scope list_scope.

(* ================================================================== *)
(** * Strings *)

(** [s.replace(old, new)] for one-character [old] and [new]. *)
Fixpoint replace (old new : ascii) (s : string) : string :=
  match s with
  | EmptyString => EmptyString
  | String c rest =>
      String (if Ascii.eqb c old then new else c) (replace old new rest)
  end.

(** [s[-n:]]: the last [n] characters, all of [s] when it is shorter. *)
Definition last_chars (n : nat) (s : string) : string :=
  substring (String.length s - n) n s.

Fixpoint occurs (c : ascii) (s : string) : bool :=
  match s with
  | EmptyString => false
  | String c' rest => Ascii.eqb c' c || occurs c rest
  end.

(* ================================================================== *)
(** * Values of the data model *)

(** A pandas timestamp: nanoseconds since the epoch, or not-a-time. *)
Inductive datetime :=
| NaT
| Timestamp (ns : Z).

(** A shapely point. *)
Record point := { coord_x : float; coord_y : float }.

(** [Point(ll)] for a pair [ll]: first component to x, second to y. *)
Definition Point (ll : float * float) : point :=
  {| coord_x := fst ll; coord_y := snd ll |}.

(** A raw JSON value of a packet, as [print] shows it. *)
Inductive value :=
| Str (s : string)
| Seq (l : list string).

(** One packet of the input document.  [None] is an absent key. *)
Record packet := {
  user_id : option string;
  longitude : option (list string);
  latitude : option (list string);
  timestamp : option (list string);
  accuracy : option (list string);
  device_details : option string
}.

(* ================================================================== *)
(** * Exceptions, trace and the computation monad *)

Inductive value_error :=
| could_not_convert_string_to_float (s : string)
| invalid_literal_for_int (s : string)
| arrays_must_be_of_the_same_length
| no_objects_to_concatenate
| unknown_datetime_string (s : string)
| length_of_values_does_not_match_index.

Inductive exn :=
| KeyError (key : string)
| ValueError (why : value_error)
| FileNotFoundError (path : string)
| DriverIOError (msg : string)
| SystemExit (status : Z).

Inductive result (A : Type) :=
| Ok (a : A)
| Raise (e : exn).
Arguments Ok {A} a.
Arguments Raise {A} e.

(** A typed column, and a labelled view of a frame ([df.items()]). *)
Inductive column :=
| object_col (l : list string)
| float64_col (l : list float)
| int64_col (l : list Z)
| datetime64_col (l : list datetime)
| geometry_col (l : list point).

Definition table := list (string * column).

(** The data set after [GeoDataFrame(...)]: four attribute columns, the
    geometry column and the coordinate reference system. *)
Record GeoDataFrame := {
  gdf_user_id : list string;
  gdf_timestamp : list datetime;
  gdf_accuracy : list Z;
  gdf_device_details : list string;
  geometry : list point;
  crs : string
}.

(** One row of the printed report (the merged table). *)
Record summary_row := {
  s_user_id : string;
  First_Log : datetime;
  Last_Log : datetime;
  N_Logs : Z;
  s_device_details : string
}.

(** What [print] writes, one constructor per call site. *)
Inductive line :=
| Text (s : string)
| Retrieved (n : nat)
| Comprising (n : nat)
| Error (e : exn)
| Raw (v : value)
| Report (rows : list summary_row)
| Blank.

Inductive event :=
| Print (l : line)
| ToFile (path : string) (gdf : GeoDataFrame).

Definition trace := list event.

Definition IO (A : Type) : Type := trace * result A.

Definition ret {A} (a : A) : IO A := ([], Ok a).
Definition raise {A} (e : exn) : IO A := ([], Raise e).
Definition print (l : line) : IO unit := ([Print l], Ok tt).
Definition exit {A} (status : Z) : IO A := raise (SystemExit status).

Definition bind {A B} (m : IO A) (k : A -> IO B) : IO B :=
  match m with
  | (t, Ok a) => let (t', r) := k a in (t ++ t', r)
  | (t, Raise e) => (t, Raise e)
  end.

Notation "x <- m ;; k" := (bind m (fun x => k))
  (at level 61, m at next level, right associativity).
Notation "m ;;; k" := (bind m (fun _ => k))
  (at level 61, right associativity).

(** [try: body except <caught>: handler].  [handler e = None] when the
    except clause does not list [e]. *)
Definition try_except {A} (body : IO A) (handler : exn -> option (IO A)) : IO A :=
  match body with
  | (t, Raise e) =>
      match handler e with
      | Some h => let (t', r) := h in (t ++ t', r)
      | None => (t, Raise e)
      end
  | done => done
  end.

(** A list comprehension whose element expression may raise. *)
Fixpoint traverse {A B} (f : A -> IO B) (l : list A) : IO (list B) :=
  match l with
  | [] => ret []
  | a :: rest => b <- f a ;; bs <- traverse f rest ;; ret (b :: bs)
  end.

(** An element function that prints nothing and either returns or raises
    [err a]: the shape of [float(...)], [int(...)] and of one element of
    [to_datetime]. *)
Definition checked {A B} (f : A -> option B) (err : A -> exn) (a : A) : IO B :=
  match f a with
  | Some b => ret b
  | None => raise (err a)
  end.

Definition output {A} (m : IO A) : trace := fst m.
Definition outcome {A} (m : IO A) : result A := snd m.

(* ================================================================== *)
(** * Library code and the outside world *)

(** The library functions [parse_data] calls on data.  [None] stands for
    the [ValueError] the Python function raises on that string.
    [argsort_descending keys] is the indexer that
    [sort_values(ascending=False)] computes for the key column with the
    default sorting algorithm. *)
Record Library := {
  py_float : string -> option float;
  py_int : string -> option Z;
  parse_datetime : string -> option datetime;
  argsort_descending : list Z -> list nat
}.

(** The file system.  [open_json path] is the [packets] list of the
    document stored at [path], [None] when no such file exists.
    [write_layer path gdf] is the outcome of the GeoPackage driver:
    [Some msg] is a [DriverIOError]. *)
Record World := {
  open_json : string -> option (list packet);
  write_layer : string -> GeoDataFrame -> option string
}.

(* ================================================================== *)
(** * Data frames *)

(** The frame built from one packet and the concatenated frame: six
    columns.  [TS] is the type of the timestamp column, raw strings
    before [to_datetime] and [datetime] after. *)
Record DataFrame (TS : Type) := {
  df_user_id : list string;
  df_longitude : list float;
  df_latitude : list float;
  df_timestamp : list TS;
  df_accuracy : list Z;
  df_device_details : list string
}.
Arguments df_user_id {TS} _.
Arguments df_longitude {TS} _.
Arguments df_latitude {TS} _.
Arguments df_timestamp {TS} _.
Arguments df_accuracy {TS} _.
Arguments df_device_details {TS} _.

(** A row of a frame. *)
Record record (TS : Type) := {
  r_user_id : string;
  r_longitude : float;
  r_latitude : float;
  r_timestamp : TS;
  r_accuracy : Z;
  r_device_details : string
}.
Arguments r_user_id {TS} _.
Arguments r_longitude {TS} _.
Arguments r_latitude {TS} _.
Arguments r_timestamp {TS} _.
Arguments r_accuracy {TS} _.
Arguments r_device_details {TS} _.

Fixpoint zip_rows {TS} (us : list string) (xs ys : list float) (ts : list TS)
    (accs : list Z) (ds : list string) : list (record TS) :=
  match us, xs, ys, ts, accs, ds with
  | u :: us', x0 :: xs', y0 :: ys', t :: ts', a :: accs', d :: ds' =>
      {| r_user_id := u; r_longitude := x0; r_latitude := y0;
         r_timestamp := t; r_accuracy := a; r_device_details := d |}
      :: zip_rows us' xs' ys' ts' accs' ds'
  | _, _, _, _, _, _ => []
  end.

(** The rows of a frame, position [i] of every column together. *)
Definition records {TS} (df : DataFrame TS) : list (record TS) :=
  zip_rows (df_user_id df) (df_longitude df) (df_latitude df)
           (df_timestamp df) (df_accuracy df) (df_device_details df).

(** [len(df.index)]. *)
Definition nrows {TS} (df : DataFrame TS) : nat := List.length (df_user_id df).

(** Every column has the length of the index. *)
Definition aligned {TS} (df : DataFrame TS) : Prop :=
  List.length (df_longitude df) = nrows df /\
  List.length (df_latitude df) = nrows df /\
  List.length (df_timestamp df) = nrows df /\
  List.length (df_accuracy df) = nrows df /\
  List.length (df_device_details df) = nrows df.

Definition all_equal (n : nat) (ns : list nat) : bool :=
  forallb (Nat.eqb n) ns.

(** [DataFrame({...})] on six columns: pandas refuses columns of
    different lengths with a [ValueError]. *)
Definition new_DataFrame {TS} (us : list string) (xs ys : list float)
    (ts : list TS) (accs : list Z) (ds : list string) : IO (DataFrame TS) :=
  if all_equal (List.length us)
       [List.length xs; List.length ys; List.length ts;
        List.length accs; List.length ds]
  then ret {| df_user_id := us; df_longitude := xs; df_latitude := ys;
              df_timestamp := ts; df_accuracy := accs;
              df_device_details := ds |}
  else raise (ValueError arrays_must_be_of_the_same_length).

(** The frames stacked in list order, column by column. *)
Definition stacked {TS} (dfs : list (DataFrame TS)) : DataFrame TS :=
  {| df_user_id := flat_map df_user_id dfs;
     df_longitude := flat_map df_longitude dfs;
     df_latitude := flat_map df_latitude dfs;
     df_timestamp := flat_map df_timestamp dfs;
     df_accuracy := flat_map df_accuracy dfs;
     df_device_details := flat_map df_device_details dfs |}.

(** [concat(dfs)]: the frames stacked in list order; an empty list is a
    [ValueError]. *)
Definition concat {TS} (dfs : list (DataFrame TS)) : IO (DataFrame TS) :=
  match dfs with
  | [] => raise (ValueError no_objects_to_concatenate)
  | _ :: _ => ret (stacked dfs)
  end.

(** [df['timestamp'] = col]. *)
Definition set_timestamp {TS TS'} (df : DataFrame TS) (col : list TS')
    : DataFrame TS' :=
  {| df_user_id := df_user_id df; df_longitude := df_longitude df;
     df_latitude := df_latitude df; df_timestamp := col;
     df_accuracy := df_accuracy df;
     df_device_details := df_device_details df |}.

(** The labelled columns of the frame, in the order of the dictionary
    given to the constructor. *)
Definition items (df : DataFrame datetime) : table :=
  [ ("user_id", object_col (df_user_id df));
    ("longitude", float64_col (df_longitude df));
    ("latitude", float64_col (df_latitude df));
    ("timestamp", datetime64_col (df_timestamp df));
    ("accuracy", int64_col (df_accuracy df));
    ("device_details", object_col (df_device_details df)) ].

Definition gdf_items (gdf : GeoDataFrame) : table :=
  [ ("user_id", object_col (gdf_user_id gdf));
    ("timestamp", datetime64_col (gdf_timestamp gdf));
    ("accuracy", int64_col (gdf_accuracy gdf));
    ("device_details", object_col (gdf_device_details gdf));
    ("geometry", geometry_col (geometry gdf)) ].

(** [t.drop(labels, axis=1)] on a labelled view. *)
Definition drop (labels : list string) (t : table) : table :=
  filter (fun lc => negb (existsb (String.eqb (fst lc)) labels)) t.

Fixpoint lookup (label : string) (t : table) : option column :=
  match t with
  | [] => None
  | (l, c) :: rest => if String.eqb l label then Some c else lookup label rest
  end.

(* ================================================================== *)
(** * The steps of [parse_data] *)

Section Program.

Variable L : Library.

(** [d[key]]. *)
Definition getitem {A} (field : option A) (key : string) : IO A :=
  match field with
  | Some v => ret v
  | None => raise (KeyError key)
  end.

(** [float(n.replace(",", "."))]. *)
Definition coerce_coordinate (n : string) : IO float :=
  let s := replace "," "." n in
  match py_float L s with
  | Some v => ret v
  | None => raise (ValueError (could_not_convert_string_to_float s))
  end.

(** [int(n)]. *)
Definition coerce_accuracy (n : string) : IO Z :=
  match py_int L n with
  | Some v => ret v
  | None => raise (ValueError (invalid_literal_for_int n))
  end.

(** Lines 55-62: the dictionary of columns, evaluated entry by entry,
    then the frame constructor. *)
Definition packet_frame (d : packet) : IO (DataFrame string) :=
  u <- getitem (user_id d) "user_id" ;;
  lon <- getitem (longitude d) "longitude" ;;
  let c_user_id := repeat u (List.length lon) in
  lon <- getitem (longitude d) "longitude" ;;
  c_longitude <- traverse coerce_coordinate lon ;;
  lat <- getitem (latitude d) "latitude" ;;
  c_latitude <- traverse coerce_coordinate lat ;;
  c_timestamp <- getitem (timestamp d) "timestamp" ;;
  acc <- getitem (accuracy d) "accuracy" ;;
  c_accuracy <- traverse coerce_accuracy acc ;;
  dev <- getitem (device_details d) "device_details" ;;
  lon <- getitem (longitude d) "longitude" ;;
  let c_device_details := repeat dev (List.length lon) in
  new_DataFrame c_user_id c_longitude c_latitude c_timestamp c_accuracy
                c_device_details.

(** Lines 64-72: the debug print-out of a rejected packet. *)
Definition print_rejected (e : exn) (d : packet) : IO unit :=
  print (Error e) ;;;
  v <- getitem (user_id d) "user_id" ;; print (Raw (Str v)) ;;;
  v <- getitem (longitude d) "longitude" ;; print (Raw (Seq v)) ;;;
  v <- getitem (latitude d) "latitude" ;; print (Raw (Seq v)) ;;;
  v <- getitem (timestamp d) "timestamp" ;; print (Raw (Seq v)) ;;;
  v <- getitem (accuracy d) "accuracy" ;; print (Raw (Seq v)) ;;;
  v <- getitem (device_details d) "device_details" ;; print (Raw (Str v)) ;;;
  print Blank.

(** Lines 54-73, one turn of the loop: [Some df] when the frame was
    appended to [dfs], [None] when the packet was skipped by [continue]. *)
Definition expand_packet (debug : bool) (d : packet)
    : IO (option (DataFrame string)) :=
  try_except
    (df <- packet_frame d ;; ret (Some df))
    (fun e =>
       match e with
       | KeyError _ | ValueError _ =>
           Some ((if debug then print_rejected e d else ret tt) ;;; ret None)
       | _ => None
       end).

(** Lines 50-73: the loop over the packets, [dfs] being the list built
    so far. *)
Fixpoint expand_packets (debug : bool) (packets : list packet)
    (dfs : list (DataFrame string)) : IO (list (DataFrame string)) :=
  match packets with
  | [] => ret dfs
  | d :: rest =>
      r <- expand_packet debug d ;;
      expand_packets debug rest
        (match r with Some df => dfs ++ [df] | None => dfs end)
  end.

(** Line 80: [to_datetime(col)]; a string that cannot be parsed raises. *)
Definition to_datetime (col : list string) : IO (list datetime) :=
  traverse
    (fun s =>
       match parse_datetime L s with
       | Some t => ret t
       | None => raise (ValueError (unknown_datetime_string s))
       end)
    col.

Definition WGS84 : string := "+proj=longlat +datum=WGS84 +no_defs".

(** Lines 83-86: the geometry list is built from the zipped longitude and
    latitude columns; the constructor receives the frame without these
    two columns and refuses a geometry list of another length. *)
Definition attach_geometry (df : DataFrame datetime) : IO GeoDataFrame :=
  let points := map Point (combine (df_longitude df) (df_latitude df)) in
  if Nat.eqb (List.length points) (nrows df)
  then ret {| gdf_user_id := df_user_id df;
              gdf_timestamp := df_timestamp df;
              gdf_accuracy := df_accuracy df;
              gdf_device_details := df_device_details df;
              geometry := points;
              crs := WGS84 |}
  else raise (ValueError length_of_values_does_not_match_index).

End Program.

(** The exceptions listed by the [except] clause of the loop. *)
Definition caught (e : exn) : bool :=
  match e with
  | KeyError _ | ValueError _ => true
  | _ => false
  end.

(** The coordinate that [float(n.replace(",", "."))] returns, [None] when
    it raises. *)
Definition float_of (L : Library) (n : string) : option float :=
  py_float L (replace "," "." n).

(** Whether the packet has its six keys. *)
Definition complete (d : packet) : bool :=
  match user_id d, longitude d, latitude d, timestamp d, accuracy d,
        device_details d with
  | Some _, Some _, Some _, Some _, Some _, Some _ => true
  | _, _, _, _, _, _ => false
  end.

(** The ways in which a packet fails: a key is missing, or an entry of
    longitude, latitude or accuracy is refused by its coercion. *)
Definition fails_validation (L : Library) (d : packet) : Prop :=
  complete d = false \/
  (exists lons, longitude d = Some lons /\
                Exists (fun n => py_float L (replace "," "." n) = None) lons) \/
  (exists lats, latitude d = Some lats /\
                Exists (fun n => py_float L (replace "," "." n) = None) lats) \/
  (exists accs, accuracy d = Some accs /\
                Exists (fun n => py_int L n = None) accs).

(** The events of the debug print-out. *)
Definition diagnostic (ev : event) : bool :=
  match ev with
  | Print (Error _) | Print (Raw _) | Print Blank => true
  | _ => false
  end.

(** The frame that one turn of the loop appends to [dfs], if any. *)
Definition appended (L : Library) (debug : bool) (d : packet)
    : list (DataFrame string) :=
  match outcome (expand_packet L debug d) with
  | Ok (Some df) => [df]
  | _ => []
  end.

(** The rows that a packet contributes to the data set. *)
Definition expansion (L : Library) (debug : bool) (d : packet)
    : list (record string) :=
  flat_map records (appended L debug d).

(* ================================================================== *)
(** * The report: group, aggregate, sort, join *)

(** One row of the left table of the join: the aggregates of a user. *)
Record agg_row := {
  a_user_id : string;
  a_First_Log : datetime;
  a_Last_Log : datetime;
  a_N_Logs : Z
}.

(** The distinct elements, first occurrences kept. *)
Fixpoint unique (l : list string) : list string :=
  match l with
  | [] => []
  | k :: rest => k :: filter (fun k' => negb (String.eqb k' k)) (unique rest)
  end.

Fixpoint insert_label (k : string) (l : list string) : list string :=
  match l with
  | [] => [k]
  | h :: t => if String.leb k h then k :: l else h :: insert_label k t
  end.

(** Ascending order of the group keys. *)
Definition sort_labels (l : list string) : list string :=
  fold_right insert_label [] l.

(** The values of the rows whose key is [k], in row order. *)
Definition group_of {V} (keys : list string) (vals : list V) (k : string)
    : list V :=
  map snd (filter (fun kv => String.eqb (fst kv) k) (combine keys vals)).

(** [vals.groupby(keys)]: one group per distinct key, keys ascending. *)
Definition groupby {V} (vals : list V) (keys : list string)
    : list (string * list V) :=
  map (fun k => (k, group_of keys vals k)) (sort_labels (unique keys)).

Definition earlier (a b : datetime) : datetime :=
  match a, b with
  | NaT, _ => b
  | _, NaT => a
  | Timestamp m, Timestamp n => Timestamp (Z.min m n)
  end.

Definition later (a b : datetime) : datetime :=
  match a, b with
  | NaT, _ => b
  | _, NaT => a
  | Timestamp m, Timestamp n => Timestamp (Z.max m n)
  end.

Definition is_time (t : datetime) : bool :=
  match t with NaT => false | Timestamp _ => true end.

(** The aggregations ['min'], ['max'] and ['count']; all skip [NaT]. *)
Definition agg_min (g : list datetime) : datetime := fold_right earlier NaT g.
Definition agg_max (g : list datetime) : datetime := fold_right later NaT g.
Definition agg_count (g : list datetime) : Z :=
  Z.of_nat (List.length (filter is_time g)).

(** [rows.take(indexer)]. *)
Definition take {A} (indexer : list nat) (rows : list A) : list A :=
  flat_map (fun i => match nth_error rows i with
                     | Some r => [r]
                     | None => []
                     end) indexer.

(** [merge(left, right, how="inner", on='user_id')]: the rows of [left]
    in their order, each joined with the rows of [right] of its key. *)
Definition merge (left : list agg_row) (right : list (string * string))
    : list summary_row :=
  flat_map
    (fun l =>
       map (fun r => {| s_user_id := a_user_id l;
                        First_Log := a_First_Log l;
                        Last_Log := a_Last_Log l;
                        N_Logs := a_N_Logs l;
                        s_device_details := snd r |})
           (filter (fun r => String.eqb (fst r) (a_user_id l)) right))
    left.

Section Report.

Variable L : Library.

(** Line 93: [gdf['timestamp'].groupby(gdf['user_id']).agg(...)] followed
    by [reset_index()]. *)
Definition aggregate (gdf : GeoDataFrame) : list agg_row :=
  map (fun kg => {| a_user_id := fst kg;
                    a_First_Log := agg_min (snd kg);
                    a_Last_Log := agg_max (snd kg);
                    a_N_Logs := agg_count (snd kg) |})
      (groupby (gdf_timestamp gdf) (gdf_user_id gdf)).

(** Line 94: [sort_values(['N_Logs'], ascending=False)]. *)
Definition sort_values_N_Logs (rows : list agg_row) : list agg_row :=
  take (argsort_descending L (map a_N_Logs rows)) rows.

(** Line 95: [gdf['device_details'].groupby(gdf['user_id']).first()]
    followed by [reset_index()]. *)
Definition first_device (gdf : GeoDataFrame) : list (string * string) :=
  flat_map (fun kg => match snd kg with
                      | d :: _ => [(fst kg, d)]
                      | [] => []
                      end)
           (groupby (gdf_device_details gdf) (gdf_user_id gdf)).

(** Lines 92-97: the table that the report prints. *)
Definition summarize (gdf : GeoDataFrame) : list summary_row :=
  merge (sort_values_N_Logs (aggregate gdf)) (first_device gdf).

End Report.

(** The group keys of the report: the distinct user ids, ascending. *)
Definition group_keys (gdf : GeoDataFrame) : list string :=
  sort_labels (unique (gdf_user_id gdf)).

(** A row of the sorted table completed by the device [f] gives for its
    user. *)
Definition joined (f : string -> string) (l : agg_row) : summary_row :=
  {| s_user_id := a_user_id l; First_Log := a_First_Log l;
     Last_Log := a_Last_Log l; N_Logs := a_N_Logs l;
     s_device_details := f (a_user_id l) |}.

(** The first [device_details] value among the rows of user [k]. *)
Definition first_of (gdf : GeoDataFrame) (k : string) : string :=
  hd "" (group_of (gdf_user_id gdf) (gdf_device_details gdf) k).

(** What the library promises of the sort: the indexer is a permutation
    of the positions and the keys it selects are in descending order.
    The order among equal keys is not part of it: the program leaves the
    sorting algorithm at the library's default, which pandas documents as
    not stable. *)
Definition sorts_descending (argsort : list Z -> list nat) : Prop :=
  forall keys,
    Permutation (argsort keys) (seq 0 (List.length keys)) /\
    Sorted Z.ge (map (fun i => nth i keys 0%Z) (argsort keys)).


(* ================================================================== *)
(** * The program *)

Section Main.

Variable L : Library.
Variable W : World.

(** Lines 29-38. *)
Definition validate_io_paths (in_path out_path : string) (export : bool)
    : IO unit :=
  (if negb (String.eqb (last_chars 5 in_path) ".json")
   then print (Text "ERROR: Input file must be *.json file") ;;; exit 1%Z
   else ret tt) ;;;
  (if export
   then if negb (String.eqb (last_chars 5 out_path) ".gpkg")
        then print (Text "ERROR: Output file path must be *.gpkg if --export=True")
             ;;; exit 1%Z
        else ret tt
   else ret tt).

(** Lines 40-47: the input file is read inside a [try] that catches
    [FileNotFoundError] only. *)
Definition load_packets (in_path : string) : IO (list packet) :=
  try_except
    (match open_json W in_path with
     | Some packets => print (Retrieved (List.length packets)) ;;; ret packets
     | None => raise (FileNotFoundError in_path)
     end)
    (fun e =>
       match e with
       | FileNotFoundError _ =>
           Some (print (Text "Input file not found") ;;; exit 1%Z)
       | _ => None
       end).

(** Lines 75-87, from the list of frames to the spatial data set. *)
Definition build_dataset (dfs : list (DataFrame string)) : IO GeoDataFrame :=
  df <- concat dfs ;;
  print (Comprising (nrows df)) ;;;
  col <- to_datetime L (df_timestamp df) ;;
  let df := set_timestamp df col in
  attach_geometry df.

(** Lines 90-98. *)
Definition report_users (report : bool) (gdf : GeoDataFrame) : IO unit :=
  if report
  then print Blank ;;; print (Report (summarize L gdf)) ;;; print Blank
  else ret tt.

(** Lines 101-115: the export and its handler. *)
Definition export_layer (out_path : string) (gdf : GeoDataFrame) : IO unit :=
  try_except
    (([ToFile out_path gdf],
      match write_layer W out_path gdf with
      | None => Ok tt
      | Some msg => Raise (DriverIOError msg)
      end) : IO unit)
    (fun e =>
       match e with
       | DriverIOError _ =>
           Some (print (Error e) ;;;
                 print (Text "ERROR: Output file path invalid"))
       | _ => None
       end).

(** Lines 50-116: everything after the document was loaded. *)
Definition process_packets (out_path : string) (export report debug : bool)
    (packets : list packet) : IO unit :=
  dfs <- expand_packets L debug packets [] ;;
  gdf <- build_dataset dfs ;;
  report_users report gdf ;;;
  (if export then export_layer out_path gdf else ret tt).

Definition parse_data (in_path out_path : string)
    (export report debug : bool) : IO unit :=
  validate_io_paths in_path out_path export ;;;
  packets <- load_packets in_path ;;
  process_packets out_path export report debug packets.

End Main.


(** The two checks of lines 29-38 pass. *)
Definition paths_valid (in_path out_path : string) (export : bool) : Prop :=
  last_chars 5 in_path = ".json" /\
  (export = true -> last_chars 5 out_path = ".gpkg").


(** The spatial data set that [GeoDataFrame(...)] makes of a frame. *)
Definition spatial (df : DataFrame datetime) : GeoDataFrame :=
  {| gdf_user_id := df_user_id df;
     gdf_timestamp := df_timestamp df;
     gdf_accuracy := df_accuracy df;
     gdf_device_details := df_device_details df;
     geometry := map Point (combine (df_longitude df) (df_latitude df));
     crs := WGS84 |}.





(* ================================================================== *)
(** * The command line (lines 119-134)

    [argparse] hands over one string per option, [None] for an option
    that was not given; [in_path] is required, so it is always a string.
    The script turns these into keyword arguments and calls
    [parse_data].  Here the values are dynamically typed: a keyword
    argument is a boolean or a string, and [parse_data] raises
    [TypeError] when it slices a boolean. *)

Definition lower_char (c : ascii) : ascii :=
  let n := nat_of_ascii c in
  if Nat.leb 65 n && Nat.leb n 90 then ascii_of_nat (n + 32) else c.

(** [s.lower()], on the letters A to Z; no other character has a lower
    case form among the letters of [true] and [false]. *)
Fixpoint lower (s : string) : string :=
  match s with
  | EmptyString => EmptyString
  | String c rest => String (lower_char c) (lower rest)
  end.

Record arguments := {
  arg_in_path : string;
  arg_out_path : option string;
  arg_export : option string;
  arg_report : option string;
  arg_debug : option string
}.

Inductive kwarg :=
| Flag (b : bool)
| Value (s : string).

(** Lines 129-133, for one option: nothing for [None] and for the empty
    string, a boolean for [true] and [false] in any letter case, the
    string itself otherwise. *)
Definition keyword (a : option string) : option kwarg :=
  match a with
  | None => None
  | Some s =>
      if String.eqb s "" then None
      else if existsb (String.eqb (lower s)) ["true"; "false"]
           then Some (Flag (String.eqb (lower s) "true"))
           else Some (Value s)
  end.

Record kwargs := {
  kw_in_path : option kwarg;
  kw_out_path : option kwarg;
  kw_export : option kwarg;
  kw_report : option kwarg;
  kw_debug : option kwarg
}.

(** Lines 127-133. *)
Definition collect (a : arguments) : kwargs :=
  {| kw_in_path := keyword (Some (arg_in_path a));
     kw_out_path := keyword (arg_out_path a);
     kw_export := keyword (arg_export a);
     kw_report := keyword (arg_report a);
     kw_debug := keyword (arg_debug a) |}.

(** The truth value of a keyword argument in an [if]. *)
Definition truthy (k : kwarg) : bool :=
  match k with
  | Flag b => b
  | Value s => negb (String.eqb s "")
  end.

(** The value of a parameter with a default. *)
Definition or_default (k : option kwarg) (default : bool) : bool :=
  match k with
  | Some v => truthy v
  | None => default
  end.

Inductive type_error :=
| missing_required_argument (name : string)
| bool_is_not_subscriptable.

(** How the call of [parse_data] on the keyword arguments ends: in a
    [TypeError], raised before anything is printed, or as the run of
    [parse_data] on strings and booleans. *)
Inductive call :=
| TypeError (why : type_error)
| Run (run : IO unit).

Section CommandLine.

Variable L : Library.
Variable W : World.

(** Line 134 with lines 19-38.  [in_path] has no default; it is sliced
    at line 30.  [out_path] is sliced at line 36, which is reached when
    the input check passed and [export] holds; when it is not reached
    [out_path] is never read, and the run is that of any string. *)
Definition call_parse_data (kw : kwargs) : call :=
  match kw_in_path kw with
  | None => TypeError (missing_required_argument "in_path")
  | Some (Flag _) => TypeError bool_is_not_subscriptable
  | Some (Value in_path) =>
      let export := or_default (kw_export kw) true in
      let report := or_default (kw_report kw) true in
      let debug := or_default (kw_debug kw) false in
      match kw_out_path kw with
      | None => Run (parse_data L W in_path "" export report debug)
      | Some (Value out_path) =>
          Run (parse_data L W in_path out_path export report debug)
      | Some (Flag _) =>
          if String.eqb (last_chars 5 in_path) ".json" && export
          then TypeError bool_is_not_subscriptable
          else Run (parse_data L W in_path "" export report debug)
      end
  end.

(** Lines 126-134. *)
Definition main (a : arguments) : call :=
  call_parse_data (collect a).

End CommandLine.

(** A command-line value that stays a string: not empty, and not one of
    the words [true] and [false] in any letter case. *)
Definition plain (s : string) : Prop :=
  s <> "" /\ lower s <> "true" /\ lower s <> "false".

(** The truth value that a flag ends up with: the default when the
    option is absent or empty, false for the word [false] in any letter
    case, true for every other value. *)
Definition setting (a : option string) (default : bool) : bool :=
  match a with
  | None => default
  | Some s =>
      if String.eqb s "" then default else negb (String.eqb (lower s) "false")
  end.

(* ================================================================== *)
(** * A reference library

    One instance of [Library], to run the program on examples.  It reads
    plain decimal literals, and date-times written
    [YYYY-MM-DD HH:MM:SS] (or with a [T]); strings outside these
    formats are refused here although Python accepts some of them.  The
    general statements below hold for every [Library]; this one serves
    the examples only. *)

Module Reference.

Definition digit (c : ascii) : option Z :=
  let n := nat_of_ascii c in
  if Nat.leb 48 n && Nat.leb n 57 then Some (Z.of_nat (n - 48)) else None.

(** The number written by a string of digits, most significant first. *)
Fixpoint digits_from (acc : Z) (s : string) : option Z :=
  match s with
  | EmptyString => Some acc
  | String c rest =>
      match digit c with
      | Some v => digits_from (10 * acc + v)%Z rest
      | None => None
      end
  end.

Definition number (s : string) : option Z :=
  match s with
  | EmptyString => None
  | _ => digits_from 0%Z s
  end.

(** The sign of a literal and the rest of it. *)
Definition signed (s : string) : bool * string :=
  match s with
  | String "-"%char rest => (true, rest)
  | String "+"%char rest => (false, rest)
  | _ => (false, s)
  end.

Fixpoint split_dot (s : string) : string * option string :=
  match s with
  | EmptyString => (EmptyString, None)
  | String "."%char rest => (EmptyString, Some rest)
  | String c rest =>
      let (a, b) := split_dot rest in (String c a, b)
  end.

Definition float_of_Z (z : Z) : float := PrimFloat.of_uint63 (Uint63.of_Z z).

(** [m / 10^k] rounded once, which is the correctly rounded value of the
    literal as long as the two operands are binary64 numbers themselves
    (and [10^k] a 63-bit integer). *)
Definition scaled (negative : bool) (m : Z) (k : nat) : option float :=
  if (m <? 2 ^ 53)%Z && Nat.leb k 18
  then let v := (float_of_Z m / float_of_Z (10 ^ Z.of_nat k))%float in
       Some (if negative then (- v)%float else v)
  else None.

Definition float_of_string (s : string) : option float :=
  let (negative, body) := signed s in
  match split_dot body with
  | (whole, None) =>
      match number whole with
      | Some m => scaled negative m 0
      | None => None
      end
  | (whole, Some frac) =>
      match whole, frac with
      | EmptyString, EmptyString => None
      | _, _ =>
          match digits_from 0%Z whole with
          | Some w =>
              match digits_from w frac with
              | Some m => scaled negative m (String.length frac)
              | None => None
              end
          | None => None
          end
      end
  end.

Definition int_of_string (s : string) : option Z :=
  let (negative, body) := signed s in
  match number body with
  | Some m => Some (if negative then (- m)%Z else m)
  | None => None
  end.

(** Days from 1970-01-01 to the given day of the proleptic Gregorian
    calendar. *)
Definition days_from_civil (yr mo dy : Z) : Z :=
  let yr' := (if mo <=? 2 then yr - 1 else yr)%Z in
  let era := (yr' / 400)%Z in
  let yoe := (yr' - era * 400)%Z in
  let mp := (if mo <=? 2 then mo + 9 else mo - 3)%Z in
  let doy := ((153 * mp + 2) / 5 + dy - 1)%Z in
  let doe := (yoe * 365 + yoe / 4 - yoe / 100 + doy)%Z in
  (era * 146097 + doe - 719468)%Z.

Definition leap (yr : Z) : bool :=
  ((yr mod 4 =? 0) && negb (yr mod 100 =? 0) || (yr mod 400 =? 0))%Z.

Definition days_in_month (yr mo : Z) : Z :=
  (if mo =? 2 then (if leap yr then 29 else 28)
   else if (mo =? 4) || (mo =? 6) || (mo =? 9) || (mo =? 11) then 30
   else 31)%Z.

Definition separator (s : string) (pos : nat) (allowed : list ascii) : bool :=
  match String.get pos s with
  | Some c => existsb (Ascii.eqb c) allowed
  | None => false
  end.

Definition datetime_of_string (s : string) : option datetime :=
  if Nat.eqb (String.length s) 19
     && separator s 4 ["-"%char] && separator s 7 ["-"%char]
     && separator s 10 [" "%char; "T"%char]
     && separator s 13 [":"%char] && separator s 16 [":"%char]
  then
    match number (substring 0 4 s), number (substring 5 2 s),
          number (substring 8 2 s), number (substring 11 2 s),
          number (substring 14 2 s), number (substring 17 2 s) with
    | Some yr, Some mo, Some dy, Some hh, Some mi, Some ss =>
        if ((1678 <=? yr) && (yr <=? 2261) && (1 <=? mo) && (mo <=? 12)
            && (1 <=? dy) && (dy <=? days_in_month yr mo)
            && (hh <? 24) && (mi <? 60) && (ss <? 60))%Z
        then Some (Timestamp
                     ((((days_from_civil yr mo dy * 24 + hh) * 60 + mi) * 60
                        + ss) * 1000000000)%Z)
        else None
    | _, _, _, _, _, _ => None
    end
  else None.

(** Insertion of position [i] into a list of positions ordered by
    descending key; [before ki kj] decides whether [i] goes in front of
    [j]. *)
Fixpoint insert_position (before : Z -> Z -> bool) (keys : list Z) (i : nat)
    (l : list nat) : list nat :=
  match l with
  | [] => [i]
  | j :: rest =>
      if before (nth i keys 0%Z) (nth j keys 0%Z)
      then i :: l
      else j :: insert_position before keys i rest
  end.

Definition insertion_argsort (before : Z -> Z -> bool) (keys : list Z)
    : list nat :=
  fold_right (insert_position before keys) [] (seq 0 (List.length keys)).

(** A stable descending sort: among equal keys the earlier position
    stays first. *)
Definition stable_argsort : list Z -> list nat :=
  insertion_argsort (fun ki kj => (kj <=? ki)%Z).


Definition library : Library :=
  {| py_float := float_of_string;
     py_int := int_of_string;
     parse_datetime := datetime_of_string;
     argsort_descending := stable_argsort |}.


End Reference.

(* ================================================================== *)
(** * Example data *)

Module Example.

Definition fixes_of_A : packet :=
  {| user_id := Some "A";
     longitude := Some ["-2,23"; "-2.24"];
     latitude := Some ["53,47"; "53.48"];
     timestamp := Some ["2022-04-19 16:23:09"; "2022-04-19 16:24:09"];
     accuracy := Some ["5"; "12"];
     device_details := Some "Pixel 4" |}.

Definition fixes_of_B : packet :=
  {| user_id := Some "B";
     longitude := Some ["-2.30"];
     latitude := Some ["53.40"];
     timestamp := Some ["2022-04-19T17:00:00"];
     accuracy := Some ["8"];
     device_details := Some "iPhone 12" |}.

(** No [user_id] key. *)
Definition without_user_id : packet :=
  {| user_id := None;
     longitude := Some ["-2.30"];
     latitude := Some ["53.40"];
     timestamp := Some ["2022-04-19T17:00:00"];
     accuracy := Some ["8"];
     device_details := Some "iPhone 12" |}.

(** A latitude that is not a number. *)
Definition bad_latitude : packet :=
  {| user_id := Some "C";
     longitude := Some ["-2.30"];
     latitude := Some ["north"];
     timestamp := Some ["2022-04-19T17:00:00"];
     accuracy := Some ["8"];
     device_details := Some "Nokia" |}.

(** A timestamp that cannot be read. *)
Definition bad_timestamp : packet :=
  {| user_id := Some "D";
     longitude := Some ["-2.30"];
     latitude := Some ["53.40"];
     timestamp := Some ["yesterday"];
     accuracy := Some ["8"];
     device_details := Some "Nokia" |}.

(** The files of the example world, by path. *)
Definition files (path : string) : option (list packet) :=
  if String.eqb path "two.json" then Some [fixes_of_A; fixes_of_B]
  else if String.eqb path "mixed.json"
       then Some [fixes_of_A; bad_latitude; fixes_of_B]
  else if String.eqb path "keyless.json"
       then Some [fixes_of_A; without_user_id; fixes_of_B]
  else if String.eqb path "empty.json" then Some []
  else if String.eqb path "rejected.json" then Some [bad_latitude]
  else if String.eqb path "late.json" then Some [fixes_of_A; bad_timestamp]
  else None.

(** The driver refuses every path under [/missing/]. *)
Definition driver (path : string) (gdf : GeoDataFrame) : option string :=
  if String.prefix "/missing/" path
  then Some "sqlite3_open failed: unable to open database file"
  else None.

Definition world : World :=
  {| open_json := files; write_layer := driver |}.

(** Five rows of user A, twelve of B, one of C. *)
Definition users_ABC : GeoDataFrame :=
  {| gdf_user_id := repeat "A" 5 ++ repeat "B" 12 ++ repeat "C" 1;
     gdf_timestamp := map (fun n => Timestamp (Z.of_nat n)) (seq 0 18);
     gdf_accuracy := repeat 5%Z 18;
     gdf_device_details :=
       repeat "Pixel 4" 5 ++ repeat "iPhone 12" 12 ++ repeat "Nokia" 1;
     geometry := repeat (Point ((-2.23)%float, 53.47%float)) 18;
     crs := WGS84 |}.


End Example.

(* ================================================================== *)
(** * Facts about the computation monad *)

Lemma bind_Ok {A B} (t : trace) (a : A) (k : A -> IO B) :
  bind (t, Ok a) k = (t ++ output (k a), outcome (k a)).
Proof. unfold bind, output, outcome. destruct (k a); reflexivity. Qed.

Lemma bind_ret {A B} (a : A) (k : A -> IO B) : bind (ret a) k = k a.
Proof. unfold ret. rewrite bind_Ok. destruct (k a); reflexivity. Qed.

Lemma bind_raise {A B} (e : exn) (k : A -> IO B) : bind (raise e) k = raise e.
Proof. reflexivity. Qed.

Lemma bind_inv_Ok {A B} (m : IO A) (k : A -> IO B) (t : trace) (b : B) :
  bind m k = (t, Ok b) ->
  exists t1 a t2, m = (t1, Ok a) /\ k a = (t2, Ok b) /\ t = t1 ++ t2.
Proof.
  destruct m as [t1 [a | e]]; simpl.
  - destruct (k a) as [t2 r] eqn:Hk. intros H. inversion H; subst.
    exists t1, a, t2. auto.
  - discriminate.
Qed.


Lemma traverse_checked_Ok {A B} (f : A -> option B) (err : A -> exn) l :
  Forall (fun a => f a <> None) l ->
  exists bs, traverse (checked f err) l = ret bs /\
             Forall2 (fun a b => f a = Some b) l bs.
Proof.
  induction 1 as [| a l Ha _ IH].
  - exists []. split; [reflexivity | constructor].
  - destruct IH as (bs & Hbs & Hall).
    destruct (f a) as [b |] eqn:Hfa; [| congruence].
    exists (b :: bs). split.
    + simpl. unfold checked at 1. rewrite Hfa, bind_ret, Hbs. reflexivity.
    + constructor; assumption.
Qed.

Lemma traverse_checked_Raise {A B} (f : A -> option B) (err : A -> exn) l :
  Exists (fun a => f a = None) l ->
  exists a, In a l /\ f a = None /\
            traverse (checked f err) l = raise (err a).
Proof.
  induction l as [| a l IH]; intros H.
  - inversion H.
  - destruct (f a) as [b |] eqn:Hfa.
    + assert (Hl : Exists (fun a => f a = None) l).
      { inversion H; subst; [congruence | assumption]. }
      destruct (IH Hl) as (a' & Hin & Hnone & Htr).
      exists a'. split; [now right |]. split; [assumption |].
      simpl. unfold checked at 1. rewrite Hfa, bind_ret, Htr. reflexivity.
    + exists a. split; [now left |]. split; [assumption |].
      simpl. unfold checked at 1. rewrite Hfa. reflexivity.
Qed.

(** [traverse] of such a function prints nothing and raises nothing but
    its own errors. *)
Lemma traverse_checked_cases {A B} (f : A -> option B) (err : A -> exn) l :
  (exists bs, traverse (checked f err) l = ret bs /\
              Forall2 (fun a b => f a = Some b) l bs) \/
  (exists a, In a l /\ f a = None /\
             traverse (checked f err) l = raise (err a)).
Proof.
  destruct (Forall_Exists_dec (fun a => f a <> None)
              (fun a => match f a as o return {o <> None} + {~ o <> None} with
                        | Some b => left (fun H => eq_ind (Some b)
                              (fun o => match o with Some _ => True | None => False end)
                              I None H)
                        | None => right (fun H => H eq_refl)
                        end) l) as [Hall | Hex].
  - left. now apply traverse_checked_Ok.
  - right. apply traverse_checked_Raise.
    apply Exists_impl with (2 := Hex). intros a Ha.
    destruct (f a); [exfalso; apply Ha; discriminate | reflexivity].
Qed.

(* ================================================================== *)
(** * One packet *)

Lemma coerce_coordinate_checked L :
  coerce_coordinate L
  = checked (float_of L)
      (fun n => ValueError (could_not_convert_string_to_float (replace "," "." n))).
Proof. reflexivity. Qed.

Lemma coerce_accuracy_checked L :
  coerce_accuracy L
  = checked (py_int L) (fun n => ValueError (invalid_literal_for_int n)).
Proof. reflexivity. Qed.

Lemma all_equal_true n ns :
  all_equal n ns = true <-> Forall (fun m => m = n) ns.
Proof.
  unfold all_equal. rewrite forallb_forall, Forall_forall.
  split; intros H m Hm.
  - symmetry. apply Nat.eqb_eq. now apply H.
  - apply Nat.eqb_eq. symmetry. now apply H.
Qed.

Lemma new_DataFrame_cases {TS} us xs ys (ts : list TS) accs ds :
  (new_DataFrame us xs ys ts accs ds
   = ret {| df_user_id := us; df_longitude := xs; df_latitude := ys;
            df_timestamp := ts; df_accuracy := accs;
            df_device_details := ds |}
   /\ List.length xs = List.length us /\ List.length ys = List.length us
   /\ List.length ts = List.length us /\ List.length accs = List.length us
   /\ List.length ds = List.length us)
  \/
  (new_DataFrame us xs ys ts accs ds
   = raise (ValueError arrays_must_be_of_the_same_length)
   /\ ~ (List.length xs = List.length us /\ List.length ys = List.length us
        /\ List.length ts = List.length us /\ List.length accs = List.length us
        /\ List.length ds = List.length us)).
Proof.
  unfold new_DataFrame.
  destruct (all_equal _ _) eqn:E.
  - left. apply all_equal_true in E.
    repeat match goal with
           | H : Forall _ (_ :: _) |- _ => inversion H; clear H; subst
           end.
    auto 10.
  - right. split; [reflexivity |].
    intros (H1 & H2 & H3 & H4 & H5).
    assert (all_equal (List.length us)
              [List.length xs; List.length ys; List.length ts;
               List.length accs; List.length ds] = true) as E'.
    { apply all_equal_true. repeat constructor; assumption. }
    congruence.
Qed.

(** What [packet_frame] does, in full: it prints nothing; when it returns
    a frame every key was present, every entry was coerced, the columns
    have one length; otherwise it raises an exception that the loop
    catches. *)
Lemma packet_frame_spec L d :
  match packet_frame L d with
  | (t, Ok df) =>
      t = [] /\
      exists u lons lats tss accs dev,
        user_id d = Some u /\ longitude d = Some lons /\
        latitude d = Some lats /\ timestamp d = Some tss /\
        accuracy d = Some accs /\ device_details d = Some dev /\
        df_user_id df = repeat u (List.length lons) /\
        Forall2 (fun n v => float_of L n = Some v) lons (df_longitude df) /\
        Forall2 (fun n v => float_of L n = Some v) lats (df_latitude df) /\
        df_timestamp df = tss /\
        Forall2 (fun n v => py_int L n = Some v) accs (df_accuracy df) /\
        df_device_details df = repeat dev (List.length lons) /\
        aligned df
  | (t, Raise e) => t = [] /\ caught e = true
  end.
Proof.
  unfold packet_frame.
  destruct d as [[u |] [lons |] [lats |] [tss |] [accs |] [dev |]];
    cbn [user_id longitude latitude timestamp accuracy device_details];
    unfold getitem;
    repeat first [rewrite bind_ret | rewrite bind_raise];
    try (split; reflexivity).
  all: rewrite coerce_coordinate_checked.
  all: destruct (traverse_checked_cases (float_of L)
         (fun n => ValueError (could_not_convert_string_to_float (replace "," "." n))) lons)
         as [(xs & -> & Hxs) | (a & _ & _ & ->)];
    repeat first [rewrite bind_ret | rewrite bind_raise];
    try (split; reflexivity).
  all: destruct (traverse_checked_cases (float_of L)
         (fun n => ValueError (could_not_convert_string_to_float (replace "," "." n))) lats)
         as [(ys & -> & Hys) | (a & _ & _ & ->)];
    repeat first [rewrite bind_ret | rewrite bind_raise];
    try (split; reflexivity).
  all: rewrite coerce_accuracy_checked.
  all: destruct (traverse_checked_cases (py_int L)
         (fun n => ValueError (invalid_literal_for_int n)) accs)
         as [(zs & -> & Hzs) | (a & _ & _ & ->)];
    repeat first [rewrite bind_ret | rewrite bind_raise];
    try (split; reflexivity).
  destruct (new_DataFrame_cases (repeat u (List.length lons)) xs ys tss zs
              (repeat dev (List.length lons)))
    as [(-> & H1 & H2 & H3 & H4 & H5) | (-> & _)];
    [| split; reflexivity].
  split; [reflexivity |].
  exists u, lons, lats, tss, accs, dev. simpl.
  repeat (split; [first [reflexivity | assumption] |]).
  unfold aligned, nrows; simpl. auto.
Qed.

Lemma packet_frame_Ok L d u lons lats tss accs dev :
  user_id d = Some u -> longitude d = Some lons -> latitude d = Some lats ->
  timestamp d = Some tss -> accuracy d = Some accs ->
  device_details d = Some dev ->
  Forall (fun n => float_of L n <> None) lons ->
  Forall (fun n => float_of L n <> None) lats ->
  Forall (fun n => py_int L n <> None) accs ->
  List.length lats = List.length lons ->
  List.length tss = List.length lons ->
  List.length accs = List.length lons ->
  exists xs ys zs,
    Forall2 (fun n v => float_of L n = Some v) lons xs /\
    Forall2 (fun n v => float_of L n = Some v) lats ys /\
    Forall2 (fun n v => py_int L n = Some v) accs zs /\
    packet_frame L d
    = ret {| df_user_id := repeat u (List.length lons);
             df_longitude := xs; df_latitude := ys; df_timestamp := tss;
             df_accuracy := zs;
             df_device_details := repeat dev (List.length lons) |}.
Proof.
  intros Hu Hlon Hlat Hts Hacc Hdev Fx Fy Fz Ly Lt La.
  destruct (traverse_checked_Ok (float_of L)
    (fun n => ValueError (could_not_convert_string_to_float (replace "," "." n)))
    lons Fx) as (xs & Tx & Hxs).
  destruct (traverse_checked_Ok (float_of L)
    (fun n => ValueError (could_not_convert_string_to_float (replace "," "." n)))
    lats Fy) as (ys & Ty & Hys).
  destruct (traverse_checked_Ok (py_int L)
    (fun n => ValueError (invalid_literal_for_int n)) accs Fz)
    as (zs & Tz & Hzs).
  exists xs, ys, zs. repeat (split; [assumption |]).
  unfold packet_frame. rewrite Hu, Hlon, Hlat, Hts, Hacc, Hdev.
  unfold getitem. rewrite coerce_coordinate_checked, coerce_accuracy_checked.
  repeat first [rewrite bind_ret | rewrite Tx | rewrite Ty | rewrite Tz].
  destruct (new_DataFrame_cases (repeat u (List.length lons)) xs ys tss zs
              (repeat dev (List.length lons))) as [(E & _) | (_ & Hne)].
  - exact E.
  - exfalso. apply Hne.
    apply Forall2_length in Hxs, Hys, Hzs.
    rewrite !repeat_length. repeat split; congruence.
Qed.

(** With [debug] off the loop body prints nothing and raises nothing. *)
Lemma expand_packet_quiet L d :
  expand_packet L false d
  = ret (match outcome (packet_frame L d) with
         | Ok df => Some df
         | Raise _ => None
         end).
Proof.
  unfold expand_packet.
  pose proof (packet_frame_spec L d) as H.
  destruct (packet_frame L d) as [t [df | e]]; simpl in *.
  - destruct H as (-> & _). reflexivity.
  - destruct H as (-> & Hc). destruct e; try discriminate; reflexivity.
Qed.

(** The debug print-out of a packet that has its six keys. *)
Lemma print_rejected_complete e d u lons lats tss accs dev :
  user_id d = Some u -> longitude d = Some lons -> latitude d = Some lats ->
  timestamp d = Some tss -> accuracy d = Some accs ->
  device_details d = Some dev ->
  print_rejected e d
  = ([Print (Error e); Print (Raw (Str u)); Print (Raw (Seq lons));
      Print (Raw (Seq lats)); Print (Raw (Seq tss)); Print (Raw (Seq accs));
      Print (Raw (Str dev)); Print Blank], Ok tt).
Proof.
  intros Hu Hlon Hlat Hts Hacc Hdev. unfold print_rejected.
  rewrite Hu, Hlon, Hlat, Hts, Hacc, Hdev. reflexivity.
Qed.

Lemma packet_frame_incomplete L d :
  complete d = false ->
  exists e, packet_frame L d = raise e /\ caught e = true.
Proof.
  intros Hc. pose proof (packet_frame_spec L d) as H.
  destruct (packet_frame L d) as [t [df | e]].
  - destruct H as (_ & u & lons & lats & tss & accs & dev
                    & Hu & Hlon & Hlat & Hts & Hacc & Hdev & _).
    unfold complete in Hc. rewrite Hu, Hlon, Hlat, Hts, Hacc, Hdev in Hc.
    discriminate.
  - destruct H as (-> & Hcaught). exists e. split; [reflexivity | assumption].
Qed.

(* ------------------------------------------------------------------ *)
(** ** Rows of a frame *)

Lemma zip_rows_length {TS} us xs ys (ts : list TS) accs ds :
  List.length xs = List.length us -> List.length ys = List.length us ->
  List.length ts = List.length us -> List.length accs = List.length us ->
  List.length ds = List.length us ->
  List.length (zip_rows us xs ys ts accs ds) = List.length us.
Proof.
  revert xs ys ts accs ds.
  induction us as [| u us IH]; intros [| x0 xs] [| y0 ys] [| t ts] [| a accs] [| d ds];
    simpl; intros; try discriminate; try reflexivity.
  f_equal. apply IH; congruence.
Qed.

Lemma zip_rows_nth_error {TS} us xs ys (ts : list TS) accs ds i u x0 y0 t a d :
  nth_error us i = Some u -> nth_error xs i = Some x0 ->
  nth_error ys i = Some y0 -> nth_error ts i = Some t ->
  nth_error accs i = Some a -> nth_error ds i = Some d ->
  nth_error (zip_rows us xs ys ts accs ds) i
  = Some {| r_user_id := u; r_longitude := x0; r_latitude := y0;
            r_timestamp := t; r_accuracy := a; r_device_details := d |}.
Proof.
  revert us xs ys ts accs ds.
  induction i as [| i IH]; intros [| u' us] [| x' xs] [| y' ys] [| t' ts] [| a' accs] [| d' ds];
    simpl; intros; try discriminate.
  - congruence.
  - now apply IH.
Qed.

Lemma zip_rows_app {TS} us xs ys (ts : list TS) accs ds us' xs' ys' ts' accs' ds' :
  List.length xs = List.length us -> List.length ys = List.length us ->
  List.length ts = List.length us -> List.length accs = List.length us ->
  List.length ds = List.length us ->
  zip_rows (us ++ us') (xs ++ xs') (ys ++ ys') (ts ++ ts') (accs ++ accs') (ds ++ ds')
  = zip_rows us xs ys ts accs ds ++ zip_rows us' xs' ys' ts' accs' ds'.
Proof.
  revert xs ys ts accs ds.
  induction us as [| u us IH]; intros [| x0 xs] [| y0 ys] [| t ts] [| a accs] [| d ds];
    simpl; intros; try discriminate; try reflexivity.
  f_equal. apply IH; congruence.
Qed.

Lemma records_length {TS} (df : DataFrame TS) :
  aligned df -> List.length (records df) = nrows df.
Proof.
  intros (H1 & H2 & H3 & H4 & H5). unfold records.
  now apply zip_rows_length.
Qed.

Lemma concat_stacked {TS} (df : DataFrame TS) dfs :
  concat (df :: dfs) = ret (stacked (df :: dfs)).
Proof. reflexivity. Qed.

Lemma records_stacked {TS} (dfs : list (DataFrame TS)) :
  Forall aligned dfs -> records (stacked dfs) = flat_map records dfs.
Proof.
  induction 1 as [| df dfs (H1 & H2 & H3 & H4 & H5) _ IH].
  - reflexivity.
  - unfold records, stacked in *. cbn [flat_map df_user_id df_longitude
      df_latitude df_timestamp df_accuracy df_device_details] in *.
    rewrite zip_rows_app by assumption. now rewrite IH.
Qed.

Lemma stacked_aligned {TS} (dfs : list (DataFrame TS)) :
  Forall aligned dfs -> aligned (stacked dfs).
Proof.
  induction 1 as [| df dfs (H1 & H2 & H3 & H4 & H5) _ (I1 & I2 & I3 & I4 & I5)];
    unfold aligned, nrows in *; cbn [stacked flat_map df_user_id df_longitude
      df_latitude df_timestamp df_accuracy df_device_details] in *.
  - auto.
  - rewrite !length_app. repeat split; congruence.
Qed.

Lemma Forall2_nth_error {A B} (R : A -> B -> Prop) l l' i a :
  Forall2 R l l' -> nth_error l i = Some a ->
  exists b, nth_error l' i = Some b /\ R a b.
Proof.
  intros H. revert i. induction H as [| a0 b0 l l' Hab _ IH]; intros [| i] Hi;
    simpl in *; try discriminate.
  - inversion Hi; subst. eauto.
  - now apply IH.
Qed.

Lemma nth_error_lt {A} (l : list A) i :
  i < List.length l -> exists a, nth_error l i = Some a.
Proof.
  intros H. destruct (nth_error l i) as [a |] eqn:E; [eauto |].
  apply nth_error_None in E. lia.
Qed.

(* ------------------------------------------------------------------ *)
(** ** The loop body *)

Lemma print_rejected_cases e d :
  exists t r, print_rejected e d = (t, r) /\
    forallb diagnostic t = true /\
    (complete d = true /\ r = Ok tt \/
     complete d = false /\ exists key, r = Raise (KeyError key)).
Proof.
  unfold complete, print_rejected.
  destruct d as [[u |] [lons |] [lats |] [tss |] [accs |] [dev |]];
    cbn [user_id longitude latitude timestamp accuracy device_details];
    cbv [getitem print bind ret raise app];
    eexists; eexists; (split; [reflexivity |]); (split; [reflexivity |]);
    first [left; split; reflexivity | right; split; [reflexivity | eauto]].
Qed.

(** One turn of the loop, every case: the frame is appended silently; or
    the packet is skipped after the optional print-out; or, with [debug]
    on and a key missing, the print-out itself raises [KeyError]. *)
Lemma expand_packet_cases L debug d :
  (exists df, packet_frame L d = ret df /\ aligned df /\
              expand_packet L debug d = ret (Some df)) \/
  (exists e t, packet_frame L d = raise e /\ caught e = true /\
               forallb diagnostic t = true /\
               (expand_packet L debug d = (t, Ok None) /\
                (debug = false \/ complete d = true) \/
                debug = true /\ complete d = false /\
                exists key, expand_packet L debug d = (t, Raise (KeyError key)))).
Proof.
  pose proof (packet_frame_spec L d) as H. unfold expand_packet.
  destruct (packet_frame L d) as [t [df | e]].
  - destruct H as (-> & u & lons & lats & tss & accs & dev & H).
    left. exists df. split; [reflexivity |]. split; [apply H | reflexivity].
  - destruct H as (-> & Hc). right. exists e.
    destruct debug.
    + destruct (print_rejected_cases e d) as (t & r & E & Hd & Hr).
      exists t. split; [reflexivity |]. split; [assumption |].
      split; [assumption |].
      destruct Hr as [(Hcomp & ->) | (Hcomp & key & ->)].
      * left. split; [| now right].
        destruct e; try discriminate Hc; simpl; rewrite E; simpl;
          now rewrite app_nil_r.
      * right. split; [reflexivity |]. split; [assumption |]. exists key.
        destruct e; try discriminate Hc; simpl; rewrite E; reflexivity.
    + exists []. split; [reflexivity |]. split; [assumption |].
      split; [reflexivity |]. left. split; [| now left].
      destruct e; try discriminate Hc; reflexivity.
Qed.

Lemma expand_packet_diagnostic L debug d :
  forallb diagnostic (output (expand_packet L debug d)) = true.
Proof.
  destruct (expand_packet_cases L debug d)
    as [(df & _ & _ & ->) | (e & t & _ & _ & Ht & [(-> & _) | (_ & _ & key & ->)])];
    [reflexivity | exact Ht | exact Ht].
Qed.

Lemma appended_aligned L debug d : Forall aligned (appended L debug d).
Proof.
  unfold appended.
  destruct (expand_packet_cases L debug d)
    as [(df & _ & Hal & ->) | (e & t & _ & _ & _ & [(-> & _) | (_ & _ & key & ->)])];
    simpl; [constructor; [assumption | constructor] | constructor | constructor].
Qed.

(* ------------------------------------------------------------------ *)
(** ** The loop *)

Lemma appended_Ok L debug d t r :
  expand_packet L debug d = (t, Ok r) ->
  appended L debug d = match r with Some df => [df] | None => [] end.
Proof. unfold appended. intros ->. reflexivity. Qed.

(** When the loop ends normally, [dfs] has grown by the appended frames,
    in packet order, and the trace is the print-outs in packet order. *)
Lemma expand_packets_Ok L debug packets :
  forall dfs t dfs',
    expand_packets L debug packets dfs = (t, Ok dfs') ->
    dfs' = dfs ++ flat_map (appended L debug) packets /\
    t = flat_map (fun d => output (expand_packet L debug d)) packets.
Proof.
  induction packets as [| d rest IH]; intros dfs t dfs' H.
  - inversion H; subst. simpl. now rewrite app_nil_r.
  - simpl in H. apply bind_inv_Ok in H.
    destruct H as (t1 & r & t2 & Hd & Hrest & ->).
    apply IH in Hrest. destruct Hrest as (-> & ->).
    cbn [flat_map]. rewrite (appended_Ok _ _ _ _ _ Hd), Hd.
    split; [| reflexivity].
    destruct r as [df |]; simpl; [rewrite <- app_assoc |]; reflexivity.
Qed.

Lemma expand_packets_diagnostic L debug packets :
  forallb diagnostic
    (flat_map (fun d => output (expand_packet L debug d)) packets) = true.
Proof.
  induction packets as [| d rest IH]; [reflexivity |].
  cbn [flat_map]. rewrite forallb_app, expand_packet_diagnostic.
  apply IH.
Qed.

(** The loop ends normally when every turn of it does. *)
Lemma expand_packets_all_Ok L debug packets :
  forall dfs,
    Forall (fun d => exists r, outcome (expand_packet L debug d) = Ok r) packets ->
    expand_packets L debug packets dfs
    = (flat_map (fun d => output (expand_packet L debug d)) packets,
       Ok (dfs ++ flat_map (appended L debug) packets)).
Proof.
  induction packets as [| d rest IH]; intros dfs H.
  - simpl. now rewrite app_nil_r.
  - inversion H as [| ? ? (r & Hr) Hrest]; subst.
    cbn [expand_packets flat_map].
    destruct (expand_packet L debug d) as [t res] eqn:E.
    cbn [outcome output fst snd] in *. subst res.
    rewrite (appended_Ok _ _ _ _ _ E), bind_Ok.
    rewrite IH by assumption. cbn [output outcome fst snd].
    destruct r as [df |]; simpl; [rewrite <- app_assoc |]; reflexivity.
Qed.

(* ================================================================== *)
(** * Coordinate coercion *)

Lemma replace_get old new s i :
  String.get i (replace old new s)
  = option_map (fun c => if Ascii.eqb c old then new else c) (String.get i s).
Proof.
  revert i. induction s as [| c s IH]; intros [| i]; simpl; auto.
Qed.

Lemma replace_length old new s :
  String.length (replace old new s) = String.length s.
Proof. induction s as [| c s IH]; simpl; congruence. Qed.

Lemma replace_occurs old new s :
  old <> new -> occurs old (replace old new s) = false.
Proof.
  intros Hne. induction s as [| c s IH]; simpl; [reflexivity |].
  rewrite IH, orb_false_r.
  destruct (Ascii.eqb c old) eqn:E; [| exact E].
  apply Ascii.eqb_neq. congruence.
Qed.

Lemma replace_absent old new s :
  occurs old s = false -> replace old new s = s.
Proof.
  induction s as [| c s IH]; simpl; [reflexivity |].
  intros H. apply orb_false_iff in H. destruct H as (Hc & Hs).
  rewrite Hc, IH by assumption. reflexivity.
Qed.

(** C5 -- Coordinate coercion replaces every comma of the string by a dot
    (every other character stays, at its place) and converts the result
    with [float]: it returns the number [float] reads, and raises the
    [ValueError] of [float] when there is none.  So ["53,47"] is coerced
    to what [float] makes of ["53.47"], and ["53.47"] is coerced
    unchanged; with the reference reading of decimal literals both give
    the binary64 number 53.47. *)
Theorem coordinate_coercion :
  forall L : Library,
    (forall n i,
        String.get i (replace "," "." n)
        = option_map (fun c => if Ascii.eqb c "," then "."%char else c)
                     (String.get i n)) /\
    (forall n, String.length (replace "," "." n) = String.length n) /\
    (forall n, occurs "," (replace "," "." n) = false) /\
    (forall n, occurs "," n = false -> replace "," "." n = n) /\
    (forall n,
        coerce_coordinate L n
        = match py_float L (replace "," "." n) with
          | Some v => ret v
          | None => raise (ValueError (could_not_convert_string_to_float
                                         (replace "," "." n)))
          end) /\
    replace "," "." "53,47" = "53.47" /\
    replace "," "." "53.47" = "53.47" /\
    coerce_coordinate L "53,47" = coerce_coordinate L "53.47" /\
    coerce_coordinate Reference.library "53,47" = ret 53.47%float /\
    coerce_coordinate Reference.library "53.47" = ret 53.47%float.
Proof.
  intros L. split; [intros; apply replace_get |].
  split; [intros; apply replace_length |].
  split; [intros; apply replace_occurs; discriminate |].
  split; [intros; now apply replace_absent |].
  repeat split; reflexivity.
Qed.

(* ================================================================== *)
(** * Expansion of a well-formed packet *)

(** C2 -- A packet that has its six keys, whose longitude, latitude and
    accuracy entries are all accepted by the coercions and whose four
    sequences have one length N, is expanded without any output into a
    frame of exactly N rows; row i holds the packet's [user_id] and
    [device_details], the coerced longitude, latitude and accuracy of
    position i and the timestamp string of position i. *)
Theorem expand_packet_well_formed :
  forall (L : Library) (debug : bool) (d : packet)
         (u : string) (lons lats tss accs : list string) (dev : string),
    user_id d = Some u -> longitude d = Some lons ->
    latitude d = Some lats -> timestamp d = Some tss ->
    accuracy d = Some accs -> device_details d = Some dev ->
    Forall (fun n => py_float L (replace "," "." n) <> None) lons ->
    Forall (fun n => py_float L (replace "," "." n) <> None) lats ->
    Forall (fun n => py_int L n <> None) accs ->
    List.length lats = List.length lons ->
    List.length tss = List.length lons ->
    List.length accs = List.length lons ->
    exists df,
      expand_packet L debug d = ([], Ok (Some df)) /\
      List.length (records df) = List.length lons /\
      forall i, i < List.length lons ->
        exists lon lat ts acc xv yv av,
          nth_error lons i = Some lon /\ nth_error lats i = Some lat /\
          nth_error tss i = Some ts /\ nth_error accs i = Some acc /\
          py_float L (replace "," "." lon) = Some xv /\
          py_float L (replace "," "." lat) = Some yv /\
          py_int L acc = Some av /\
          nth_error (records df) i
          = Some {| r_user_id := u; r_longitude := xv; r_latitude := yv;
                    r_timestamp := ts; r_accuracy := av;
                    r_device_details := dev |}.
Proof.
  intros L debug d u lons lats tss accs dev Hu Hlon Hlat Hts Hacc Hdev
         Fx Fy Fz Ly Lt La.
  destruct (packet_frame_Ok L d u lons lats tss accs dev Hu Hlon Hlat Hts
              Hacc Hdev Fx Fy Fz Ly Lt La) as (xs & ys & zs & Hxs & Hys & Hzs & E).
  eexists. split; [unfold expand_packet; rewrite E; reflexivity |].
  pose proof (Forall2_length Hxs) as Lx.
  pose proof (Forall2_length Hys) as Ly'.
  pose proof (Forall2_length Hzs) as Lz.
  unfold records; cbn [df_user_id df_longitude df_latitude df_timestamp
                       df_accuracy df_device_details].
  split.
  - rewrite zip_rows_length; rewrite ?repeat_length; congruence.
  - intros i Hi.
    destruct (nth_error_lt lons i Hi) as (lon & Hlon_i).
    destruct (nth_error_lt lats i ltac:(lia)) as (lat & Hlat_i).
    destruct (nth_error_lt tss i ltac:(lia)) as (ts & Hts_i).
    destruct (nth_error_lt accs i ltac:(lia)) as (acc & Hacc_i).
    destruct (Forall2_nth_error _ _ _ _ _ Hxs Hlon_i) as (xv & Hxv & Rx).
    destruct (Forall2_nth_error _ _ _ _ _ Hys Hlat_i) as (yv & Hyv & Ry).
    destruct (Forall2_nth_error _ _ _ _ _ Hzs Hacc_i) as (av & Hav & Rz).
    exists lon, lat, ts, acc, xv, yv, av.
    repeat (split; [assumption |]).
    apply zip_rows_nth_error; try assumption;
      now apply nth_error_repeat.
Qed.

Lemma expand_packet_well_formed_witness :
  exists df,
    expand_packet Reference.library true Example.fixes_of_A = ([], Ok (Some df)) /\
    List.length (records df) = 2 /\
    nth_error (records df) 0
    = Some {| r_user_id := "A"; r_longitude := (-2.23)%float;
              r_latitude := 53.47%float;
              r_timestamp := "2022-04-19 16:23:09"; r_accuracy := 5%Z;
              r_device_details := "Pixel 4" |}.
Proof.
  destruct (expand_packet_well_formed Reference.library true
              Example.fixes_of_A "A"
              ["-2,23"; "-2.24"] ["53,47"; "53.48"]
              ["2022-04-19 16:23:09"; "2022-04-19 16:24:09"] ["5"; "12"]
              "Pixel 4")
    as (df & E & Hlen & Hrows);
    try reflexivity;
    try (repeat constructor; vm_compute; discriminate).
  exists df. split; [exact E |]. split; [exact Hlen |].
  destruct (Hrows 0 ltac:(simpl; lia))
    as (lon & lat & ts & acc & xv & yv & av & H1 & H2 & H3 & H4 & H5 & H6 & H7 & H8).
  simpl in H1, H2, H3, H4.
  inversion H1; inversion H2; inversion H3; inversion H4; subst.
  vm_compute in H5, H6, H7.
  inversion H5; inversion H6; inversion H7; subst. exact H8.
Defined.

(* ================================================================== *)
(** * Rejected packets *)

(** With [debug] off a rejected packet is skipped silently, whatever the
    cause. *)
Lemma expand_packets_quiet L packets dfs :
  expand_packets L false packets dfs
  = ret (dfs ++ flat_map (appended L false) packets).
Proof.
  rewrite expand_packets_all_Ok.
  - unfold ret. f_equal.
    induction packets as [| d rest IH]; [reflexivity |].
    cbn [flat_map]. rewrite IH, expand_packet_quiet. reflexivity.
  - apply Forall_forall. intros d _. rewrite expand_packet_quiet.
    eexists. reflexivity.
Qed.

Lemma Forall2_Exists_None {A B} (f : A -> option B) l bs :
  Forall2 (fun a b => f a = Some b) l bs ->
  Exists (fun a => f a = None) l -> False.
Proof.
  induction 1 as [| a b l bs Hab _ IH]; intros H; inversion H; subst.
  - congruence.
  - auto.
Qed.

Lemma fails_validation_raises L d :
  fails_validation L d ->
  exists e, packet_frame L d = raise e /\ caught e = true.
Proof.
  intros Hf. pose proof (packet_frame_spec L d) as H.
  destruct (packet_frame L d) as [t [df | e]].
  - exfalso.
    destruct H as (_ & u & lons & lats & tss & accs & dev
                    & Hu & Hlon & Hlat & Hts & Hacc & Hdev & _ & Hxs & Hys & _ & Hzs & _).
    destruct Hf as [Hc | [(l & E & Hex) | [(l & E & Hex) | (l & E & Hex)]]].
    + unfold complete in Hc. rewrite Hu, Hlon, Hlat, Hts, Hacc, Hdev in Hc.
      discriminate.
    + rewrite Hlon in E. inversion E; subst.
      exact (Forall2_Exists_None (float_of L) _ _ Hxs Hex).
    + rewrite Hlat in E. inversion E; subst.
      exact (Forall2_Exists_None (float_of L) _ _ Hys Hex).
    + rewrite Hacc in E. inversion E; subst.
      exact (Forall2_Exists_None (py_int L) _ _ Hzs Hex).
  - destruct H as (-> & Hc). exists e. split; [reflexivity | assumption].
Qed.

(** With [debug] off, a failing packet contributes no row and the loop
    ends with the frames it would have built without that packet. *)
Theorem rejected_packet_is_skipped_quietly :
  forall L before d after dfs,
    fails_validation L d ->
    expansion L false d = [] /\
    expand_packets L false (before ++ d :: after) dfs
    = expand_packets L false (before ++ after) dfs.
Proof.
  intros L before d after dfs Hf.
  destruct (fails_validation_raises L d Hf) as (e & E & _).
  assert (Ha : appended L false d = []).
  { unfold appended. rewrite expand_packet_quiet, E. reflexivity. }
  split.
  - unfold expansion. now rewrite Ha.
  - rewrite !expand_packets_quiet, !flat_map_app. cbn [flat_map].
    now rewrite Ha.
Qed.

Lemma rejected_packet_is_skipped_quietly_witness :
  expansion Reference.library false Example.bad_latitude = [] /\
  expand_packets Reference.library false
    ([Example.fixes_of_A] ++ Example.bad_latitude :: [Example.fixes_of_B]) []
  = expand_packets Reference.library false
      ([Example.fixes_of_A] ++ [Example.fixes_of_B]) [].
Proof.
  apply (rejected_packet_is_skipped_quietly Reference.library
           [Example.fixes_of_A] Example.bad_latitude [Example.fixes_of_B] []).
  right; right; left. exists ["north"]. split; [reflexivity |].
  constructor. reflexivity.
Defined.



(** With [debug] on, a packet that lacks a key is not skipped: the
    print-out reads the missing key and its [KeyError] leaves the loop
    body. *)
Lemma expand_packet_incomplete_debug L d :
  complete d = false ->
  exists t key,
    expand_packet L true d = (t, Raise (KeyError key)) /\
    forallb diagnostic t = true.
Proof.
  intros Hc.
  destruct (expand_packet_cases L true d)
    as [(df & E & _) | (e & t & _ & _ & Ht & [(_ & [H | H]) | (_ & _ & key & E)])].
  - destruct (packet_frame_incomplete L d Hc) as (e & E' & _).
    rewrite E in E'. discriminate.
  - discriminate.
  - congruence.
  - eauto.
Qed.

(** A packet that has its six keys never makes the loop body raise. *)
Lemma expand_packet_complete L debug d :
  complete d = true -> exists r, outcome (expand_packet L debug d) = Ok r.
Proof.
  intros Hc.
  destruct (expand_packet_cases L debug d)
    as [(df & _ & _ & ->) | (e & t & _ & _ & _ & [(-> & _) | (_ & H & _)])];
    [eexists; reflexivity | eexists; reflexivity | congruence].
Qed.

(** The loop stops at the first turn that raises. *)
Lemma expand_packets_raise_at L debug before d after t e :
  Forall (fun p => exists r, outcome (expand_packet L debug p) = Ok r) before ->
  expand_packet L debug d = (t, Raise e) ->
  forall dfs,
    expand_packets L debug (before ++ d :: after) dfs
    = (flat_map (fun p => output (expand_packet L debug p)) before ++ t,
       Raise e).
Proof.
  intros Hb Hd. induction Hb as [| p before (r & Hr) _ IH]; intros dfs.
  - cbn [app expand_packets flat_map]. rewrite Hd. reflexivity.
  - cbn [app expand_packets flat_map].
    destruct (expand_packet L debug p) as [tp res] eqn:E.
    cbn [outcome output fst snd] in *. subst res.
    rewrite bind_Ok, IH. cbn [output outcome fst snd].
    now rewrite app_assoc.
Qed.

(** C3 -- The loop body with [debug] on, at a packet that lacks one of
    the six keys: building the frame raises, the handler prints the
    error and then reads the six keys for the print-out, and the
    [KeyError] of the missing key leaves the handler.  An exception does
    propagate out of the loop body.  At a packet without [user_id] the
    trace is the error alone: none of the six raw values is printed. *)
Theorem expand_packet_debug_propagates_KeyError :
  forall L : Library,
    (forall d,
        complete d = false ->
        exists t key,
          expand_packet L true d = (t, Raise (KeyError key)) /\
          forallb diagnostic t = true) /\
    complete Example.without_user_id = false /\
    expand_packet L true Example.without_user_id
    = ([Print (Error (KeyError "user_id"))], Raise (KeyError "user_id")).
Proof.
  intros L. split; [| split; reflexivity].
  intros d Hc. now apply expand_packet_incomplete_debug.
Qed.

(* ================================================================== *)
(** * Concatenation *)

Lemma flat_map_flat_map {A B C} (f : B -> list C) (g : A -> list B) l :
  flat_map f (flat_map g l) = flat_map (fun a => flat_map f (g a)) l.
Proof.
  induction l as [| a l IH]; [reflexivity |].
  cbn [flat_map]. now rewrite flat_map_app, IH.
Qed.

Lemma Forall_flat_map {A B} (P : B -> Prop) (g : A -> list B) l :
  (forall a, Forall P (g a)) -> Forall P (flat_map g l).
Proof.
  intros H. induction l as [| a l IH]; [constructor |].
  cbn [flat_map]. apply Forall_app. auto.
Qed.

Lemma concat_Ok {TS} (dfs : list (DataFrame TS)) t df :
  concat dfs = (t, Ok df) -> dfs <> [] /\ t = [] /\ df = stacked dfs.
Proof.
  destruct dfs as [| df0 dfs]; [discriminate |].
  intros H. inversion H; subst. repeat split. discriminate.
Qed.

(** C4 -- When the loop over the packets ends normally and the frames it
    collected are concatenated, the frames are those of the accepted
    packets in packet order, and the rows of the data set are the rows of
    these frames one frame after the other, each frame's rows in their
    own order: the data set is the concatenation, in packet order, of
    what every packet contributes.  With two accepted packets of N1 and
    N2 fixes, the first N1 rows are the rows of the first frame and the
    rest are the rows of the second. *)
Theorem concatenation_preserves_order :
  forall L debug packets t dfs t' df,
    expand_packets L debug packets [] = (t, Ok dfs) ->
    concat dfs = (t', Ok df) ->
    dfs = flat_map (appended L debug) packets /\
    records df = flat_map records dfs /\
    records df = flat_map (expansion L debug) packets /\
    (forall df1 df2,
        dfs = [df1; df2] ->
        List.length (records df1) = nrows df1 /\
        List.length (records df2) = nrows df2 /\
        firstn (nrows df1) (records df) = records df1 /\
        skipn (nrows df1) (records df) = records df2).
Proof.
  intros L debug packets t dfs t' df Hloop Hcat.
  apply expand_packets_Ok in Hloop. destruct Hloop as (Hdfs & _).
  simpl in Hdfs.
  apply concat_Ok in Hcat. destruct Hcat as (_ & _ & ->).
  assert (Hal : Forall aligned dfs).
  { subst dfs. apply Forall_flat_map. intros d. apply appended_aligned. }
  split; [assumption |].
  split; [now apply records_stacked |].
  split.
  - rewrite records_stacked by assumption. subst dfs.
    unfold expansion. apply flat_map_flat_map.
  - intros df1 df2 E. rewrite records_stacked by assumption.
    rewrite E in Hal |- *.
    inversion Hal as [| ? ? H1 Hal']; subst.
    inversion Hal' as [| ? ? H2 _]; subst.
    pose proof (records_length df1 H1) as L1.
    pose proof (records_length df2 H2) as L2.
    cbn [flat_map]. rewrite app_nil_r, <- L1.
    repeat split; try assumption.
    + rewrite firstn_app, firstn_all, Nat.sub_diag. simpl.
      now rewrite app_nil_r.
    + rewrite skipn_app, skipn_all, Nat.sub_diag. reflexivity.
Qed.

Lemma concatenation_preserves_order_witness :
  exists df,
    concat (flat_map (appended Reference.library true)
              [Example.fixes_of_A; Example.bad_latitude; Example.fixes_of_B])
    = ([], Ok df) /\
    records df
    = expansion Reference.library true Example.fixes_of_A
      ++ expansion Reference.library true Example.bad_latitude
      ++ expansion Reference.library true Example.fixes_of_B
      ++ [] /\
    List.length (records df) = 3.
Proof.
  eexists. split; [vm_compute; reflexivity |].
  split; [| vm_compute; reflexivity].
  eapply (concatenation_preserves_order Reference.library true
            [Example.fixes_of_A; Example.bad_latitude; Example.fixes_of_B]).
  - vm_compute. reflexivity.
  - vm_compute. reflexivity.
Defined.

(* ================================================================== *)
(** * Geometry *)

Lemma nth_error_combine {A B} (l : list A) (l' : list B) i a b :
  nth_error l i = Some a -> nth_error l' i = Some b ->
  nth_error (combine l l') i = Some (a, b).
Proof.
  revert l l'. induction i as [| i IH]; intros [| a0 l] [| b0 l'];
    simpl; intros; try discriminate.
  - congruence.
  - now apply IH.
Qed.

Lemma attach_geometry_Ok (df : DataFrame datetime) :
  aligned df ->
  List.length (map Point (combine (df_longitude df) (df_latitude df))) = nrows df /\
  attach_geometry df
  = ret {| gdf_user_id := df_user_id df;
           gdf_timestamp := df_timestamp df;
           gdf_accuracy := df_accuracy df;
           gdf_device_details := df_device_details df;
           geometry := map Point (combine (df_longitude df) (df_latitude df));
           crs := WGS84 |}.
Proof.
  intros (Hlon & Hlat & _).
  assert (Hlen : List.length (map Point (combine (df_longitude df) (df_latitude df)))
                 = nrows df).
  { rewrite length_map, length_combine, Hlon, Hlat. apply Nat.min_id. }
  split; [exact Hlen |].
  unfold attach_geometry. now rewrite Hlen, Nat.eqb_refl.
Qed.

(** C6 -- For a frame whose columns have one length, [attach_geometry]
    returns a spatial data set whose geometry column holds, at every
    row, the point built from that row's longitude and latitude alone,
    longitude as x and latitude as y: (-2.23, 53.47) becomes the point
    with x = -2.23 and y = 53.47.  The columns of the result are those
    of the frame without [longitude] and [latitude], followed by
    [geometry]; neither label is found in it. *)
Theorem attach_geometry_points :
  forall df : DataFrame datetime,
    aligned df ->
    exists gdf,
      attach_geometry df = ([], Ok gdf) /\
      geometry gdf = map Point (combine (df_longitude df) (df_latitude df)) /\
      List.length (geometry gdf) = nrows df /\
      (forall i lon lat,
          nth_error (df_longitude df) i = Some lon ->
          nth_error (df_latitude df) i = Some lat ->
          exists p, nth_error (geometry gdf) i = Some p /\
                    coord_x p = lon /\ coord_y p = lat) /\
      Point ((-2.23)%float, 53.47%float)
      = {| coord_x := (-2.23)%float; coord_y := 53.47%float |} /\
      gdf_items gdf
      = drop ["longitude"; "latitude"] (items df)
        ++ [("geometry", geometry_col (geometry gdf))] /\
      lookup "longitude" (gdf_items gdf) = None /\
      lookup "latitude" (gdf_items gdf) = None /\
      crs gdf = WGS84.
Proof.
  intros df Hal. destruct (attach_geometry_Ok df Hal) as (Hlen & ->).
  eexists. split; [reflexivity |]. cbn [geometry crs].
  split; [reflexivity |]. split; [exact Hlen |].
  split; [| repeat split; reflexivity].
  intros i lon lat Hi Hj. exists (Point (lon, lat)).
  split; [| split; reflexivity].
  apply map_nth_error. now apply nth_error_combine.
Qed.

Lemma attach_geometry_points_witness :
  exists gdf,
    attach_geometry
      {| df_user_id := ["A"]; df_longitude := [(-2.23)%float];
         df_latitude := [53.47%float]; df_timestamp := [Timestamp 0];
         df_accuracy := [5%Z]; df_device_details := ["Pixel 4"] |}
    = ([], Ok gdf) /\
    geometry gdf = [{| coord_x := (-2.23)%float; coord_y := 53.47%float |}] /\
    lookup "longitude" (gdf_items gdf) = None /\
    lookup "latitude" (gdf_items gdf) = None.
Proof.
  destruct (attach_geometry_points
              {| df_user_id := ["A"]; df_longitude := [(-2.23)%float];
                 df_latitude := [53.47%float]; df_timestamp := [Timestamp 0];
                 df_accuracy := [5%Z]; df_device_details := ["Pixel 4"] |})
    as (gdf & E & Hg & _ & _ & _ & _ & Hx & Hy & _).
  - repeat split; reflexivity.
  - exists gdf. repeat split; assumption.
Defined.

(** In a run the frame that reaches [attach_geometry] has columns of one
    length, so the constructor accepts the geometry list: the spatial
    data set has one point per row of the concatenated frame. *)
Theorem run_frame_is_aligned :
  forall L debug packets t dfs t' col,
    expand_packets L debug packets [] = (t, Ok dfs) ->
    to_datetime L (df_timestamp (stacked dfs)) = (t', Ok col) ->
    aligned (set_timestamp (stacked dfs) col) /\
    exists gdf,
      attach_geometry (set_timestamp (stacked dfs) col) = ([], Ok gdf) /\
      List.length (geometry gdf) = nrows (stacked dfs).
Proof.
  intros L debug packets t dfs t' col Hloop Hts.
  apply expand_packets_Ok in Hloop. destruct Hloop as (Hdfs & _).
  simpl in Hdfs.
  assert (Hal : aligned (stacked dfs)).
  { apply stacked_aligned. subst dfs. apply Forall_flat_map.
    intros d. apply appended_aligned. }
  assert (Hcol : List.length col = List.length (df_timestamp (stacked dfs))).
  { destruct (traverse_checked_cases (parse_datetime L)
                (fun s => ValueError (unknown_datetime_string s))
                (df_timestamp (stacked dfs)))
      as [(col' & E & Hf) | (s & _ & _ & E)];
      unfold to_datetime in Hts; fold (checked (parse_datetime L)
        (fun s => ValueError (unknown_datetime_string s))) in Hts;
      rewrite E in Hts; inversion Hts; subst.
    symmetry. exact (Forall2_length Hf). }
  assert (Hal' : aligned (set_timestamp (stacked dfs) col)).
  { destruct Hal as (H1 & H2 & H3 & H4 & H5).
    unfold aligned, nrows in *. cbn [set_timestamp df_user_id df_longitude
      df_latitude df_timestamp df_accuracy df_device_details] in *.
    repeat split; congruence. }
  split; [exact Hal' |].
  destruct (attach_geometry_Ok _ Hal') as (Hlen & E).
  eexists. split; [exact E | exact Hlen].
Qed.

Lemma run_frame_is_aligned_witness :
  exists gdf,
    attach_geometry
      (set_timestamp
         (stacked (flat_map (appended Reference.library false)
                     [Example.fixes_of_A; Example.fixes_of_B]))
         [Timestamp 1650385389000000000; Timestamp 1650385449000000000;
          Timestamp 1650387600000000000])
    = ([], Ok gdf) /\
    List.length (geometry gdf) = 3.
Proof.
  destruct (run_frame_is_aligned Reference.library false
              [Example.fixes_of_A; Example.fixes_of_B] []
              (flat_map (appended Reference.library false)
                 [Example.fixes_of_A; Example.fixes_of_B])
              []
              [Timestamp 1650385389000000000; Timestamp 1650385449000000000;
               Timestamp 1650387600000000000])
    as (_ & gdf & E & Hlen).
  - vm_compute. reflexivity.
  - vm_compute. reflexivity.
  - exists gdf. split; [exact E | exact Hlen].
Defined.

(* ================================================================== *)
(** * File name extensions *)






(* ================================================================== *)
(** * The run *)

Lemma validate_io_paths_cases in_path out_path export :
  (paths_valid in_path out_path export /\
   validate_io_paths in_path out_path export = ret tt) \/
  ((last_chars 5 in_path <> ".json" \/
    export = true /\ last_chars 5 out_path <> ".gpkg") /\
   exists msg, validate_io_paths in_path out_path export
               = ([Print (Text msg)], Raise (SystemExit 1))).
Proof.
  unfold validate_io_paths, paths_valid.
  destruct (String.eqb_spec (last_chars 5 in_path) ".json") as [Hin | Hin];
    cbn [negb].
  - destruct export; cbn.
    + destruct (String.eqb_spec (last_chars 5 out_path) ".gpkg") as [Ho | Ho];
        cbn [negb].
      * left. auto.
      * right. split; [right; auto |]. eexists. reflexivity.
    + left. split; [split; [assumption | discriminate] | reflexivity].
  - right. split; [now left |]. eexists. reflexivity.
Qed.

Lemma load_packets_cases W in_path :
  match open_json W in_path with
  | Some packets =>
      load_packets W in_path = ([Print (Retrieved (List.length packets))], Ok packets)
  | None =>
      load_packets W in_path
      = ([Print (Text "Input file not found")], Raise (SystemExit 1))
  end.
Proof. unfold load_packets. destruct (open_json W in_path); reflexivity. Qed.

(** Past the two checks and the loading, the run is [process_packets]. *)
Lemma parse_data_loaded L W in_path out_path export report debug packets :
  paths_valid in_path out_path export ->
  open_json W in_path = Some packets ->
  parse_data L W in_path out_path export report debug
  = (Print (Retrieved (List.length packets))
       :: output (process_packets L W out_path export report debug packets),
     outcome (process_packets L W out_path export report debug packets)).
Proof.
  intros Hv Ho. unfold parse_data.
  destruct (validate_io_paths_cases in_path out_path export)
    as [(_ & ->) | ([H | (He & H)] & _)].
  - rewrite bind_ret. pose proof (load_packets_cases W in_path) as Hl.
    rewrite Ho in Hl. rewrite Hl, bind_Ok. reflexivity.
  - destruct Hv as (Hv & _). contradiction.
  - destruct Hv as (_ & Hv). specialize (Hv He). contradiction.
Qed.


Lemma to_datetime_checked L :
  to_datetime L
  = traverse (checked (parse_datetime L)
                (fun s => ValueError (unknown_datetime_string s))).
Proof. reflexivity. Qed.







(* ------------------------------------------------------------------ *)
(** ** A packet without a key, under [debug] *)

(** C1 -- A run with [debug] on over a document that holds a packet
    lacking a key (the packets before it having their six keys): the run
    ends in the [KeyError] raised inside the handler; the trace shows the
    packet count and debug print-outs only, hence no row count: the
    other packets of the document produce nothing.  On the example
    document, whose second packet has no [user_id], the run stops there,
    while the document without that packet yields the three rows of the
    two well-formed packets, and so does the same document with [debug]
    off. *)
Theorem incomplete_packet_aborts_debug_run :
  (forall L W in_path out_path export report before d after,
      paths_valid in_path out_path export ->
      open_json W in_path = Some (before ++ d :: after) ->
      Forall (fun p => complete p = true) before ->
      complete d = false ->
      exists t key,
        parse_data L W in_path out_path export report true
        = (Print (Retrieved (List.length (before ++ d :: after))) :: t,
           Raise (KeyError key)) /\
        forallb diagnostic t = true) /\
  parse_data Reference.library Example.world "keyless.json" "out.gpkg"
             true true true
  = ([Print (Retrieved 3); Print (Error (KeyError "user_id"))],
     Raise (KeyError "user_id")) /\
  (exists t, parse_data Reference.library Example.world "two.json"
               "out.gpkg" true true true = (t, Ok tt)
             /\ In (Print (Comprising 3)) t) /\
  (exists t, parse_data Reference.library Example.world "keyless.json"
               "out.gpkg" true true false = (t, Ok tt)
             /\ In (Print (Comprising 3)) t).
Proof.
  split.
  - intros L W in_path out_path export report before d after Hv Ho Hb Hd.
    destruct (expand_packet_incomplete_debug L d Hd) as (t & key & E & Ht).
    exists (flat_map (fun p => output (expand_packet L true p)) before ++ t), key.
    split.
    + rewrite (parse_data_loaded L W _ _ _ _ _ _ Hv Ho).
      unfold process_packets.
      rewrite (expand_packets_raise_at L true before d after t (KeyError key));
        [reflexivity | | exact E].
      apply Forall_impl with (2 := Hb). intros p.
      apply expand_packet_complete.
    + rewrite forallb_app, expand_packets_diagnostic, Ht. reflexivity.
  - split; [vm_compute; reflexivity |].
    split; eexists; (split; [vm_compute; reflexivity |]); simpl; auto.
Qed.

(* ------------------------------------------------------------------ *)
(** ** Exit status *)



(* ------------------------------------------------------------------ *)
(** ** Timestamps *)

(** C8 -- When the run reaches the concatenated data set and one of its
    timestamp strings is refused by the date-time parser, [to_datetime]
    raises a [ValueError] that nothing catches: the run ends in it, right
    after the row count; no row and no packet is dropped instead, and
    neither the report nor the export takes place. *)
Theorem unparsable_timestamp_fails_run :
  forall L W in_path out_path export report debug packets t dfs,
    paths_valid in_path out_path export ->
    open_json W in_path = Some packets ->
    expand_packets L debug packets [] = (t, Ok dfs) ->
    Exists (fun s => parse_datetime L s = None) (flat_map df_timestamp dfs) ->
    exists s,
      In s (flat_map df_timestamp dfs) /\
      parse_datetime L s = None /\
      parse_data L W in_path out_path export report debug
      = (Print (Retrieved (List.length packets))
           :: t ++ [Print (Comprising (nrows (stacked dfs)))],
         Raise (ValueError (unknown_datetime_string s))) /\
      forallb diagnostic t = true.
Proof.
  intros L W in_path out_path export report debug packets t dfs Hv Ho Hloop Hex.
  destruct (traverse_checked_Raise (parse_datetime L)
              (fun s => ValueError (unknown_datetime_string s)) _ Hex)
    as (s & Hin & Hnone & Htr).
  exists s. split; [assumption |]. split; [assumption |].
  split.
  - rewrite (parse_data_loaded L W _ _ _ _ _ packets Hv Ho).
    unfold process_packets. rewrite Hloop, bind_Ok.
    assert (Hb : build_dataset L dfs
                 = ([Print (Comprising (nrows (stacked dfs)))],
                    Raise (ValueError (unknown_datetime_string s)))).
    { unfold build_dataset.
      destruct dfs as [| df dfs]; [simpl in Hex; now inversion Hex |].
      rewrite concat_stacked, bind_ret. unfold print. rewrite bind_Ok.
      rewrite to_datetime_checked.
      change (df_timestamp (stacked (df :: dfs)))
        with (flat_map df_timestamp (df :: dfs)).
      rewrite Htr. reflexivity. }
    rewrite Hb. reflexivity.
  - apply expand_packets_Ok in Hloop. destruct Hloop as (_ & ->).
    apply expand_packets_diagnostic.
Qed.

Lemma unparsable_timestamp_fails_run_witness :
  exists s,
    parse_data Reference.library Example.world "late.json" "out.gpkg"
               true true false
    = ([Print (Retrieved 2); Print (Comprising 3)],
       Raise (ValueError (unknown_datetime_string s))).
Proof.
  destruct (unparsable_timestamp_fails_run Reference.library Example.world
              "late.json" "out.gpkg" true true false
              [Example.fixes_of_A; Example.bad_timestamp] []
              (flat_map (appended Reference.library false)
                 [Example.fixes_of_A; Example.bad_timestamp]))
    as (s & _ & _ & E & _).
  - split; reflexivity.
  - reflexivity.
  - vm_compute. reflexivity.
  - apply Exists_exists. exists "yesterday".
    split; [vm_compute; right; right; left; reflexivity | reflexivity].
  - exists s. exact E.
Defined.

(* ------------------------------------------------------------------ *)
(** ** No accepted packet *)




(* ================================================================== *)
(** * The report *)

(** ** The two reference sorts meet the contract *)

Section InsertionArgsort.

Variable before : Z -> Z -> bool.
Hypothesis before_true : forall ki kj, before ki kj = true -> (kj <= ki)%Z.
Hypothesis before_false : forall ki kj, before ki kj = false -> (ki <= kj)%Z.
Variable keys : list Z.

Let key (i : nat) : Z := nth i keys 0%Z.

Lemma insert_position_perm i l :
  Permutation (Reference.insert_position before keys i l) (i :: l).
Proof.
  induction l as [| j rest IH]; simpl; [reflexivity |].
  destruct (before _ _); [reflexivity |].
  rewrite IH. apply perm_swap.
Qed.

Lemma insert_position_sorted i l :
  Sorted Z.ge (map key l) ->
  Sorted Z.ge (map key (Reference.insert_position before keys i l)).
Proof.
  induction l as [| j rest IH]; intros Hs; simpl.
  - repeat constructor.
  - destruct (before (nth i keys 0%Z) (nth j keys 0%Z)) eqn:E.
    + simpl. constructor; [exact Hs |]. constructor.
      apply before_true in E. unfold key. lia.
    + simpl in Hs. apply Sorted_inv in Hs. destruct Hs as (Hrest & Hhd).
      simpl. constructor; [now apply IH |].
      destruct rest as [| j' rest']; simpl.
      * constructor. apply before_false in E. unfold key. lia.
      * destruct (before (nth i keys 0%Z) (nth j' keys 0%Z)); simpl.
        -- constructor. apply before_false in E. unfold key. lia.
        -- simpl in Hhd. apply HdRel_inv in Hhd. now constructor.
Qed.

Lemma insertion_argsort_contract :
  Permutation (Reference.insertion_argsort before keys)
              (seq 0 (List.length keys)) /\
  Sorted Z.ge (map key (Reference.insertion_argsort before keys)).
Proof.
  unfold Reference.insertion_argsort.
  generalize (seq 0 (List.length keys)) as l.
  induction l as [| i l (IHp & IHs)]; simpl.
  - split; constructor.
  - split.
    + rewrite insert_position_perm. now constructor.
    + now apply insert_position_sorted.
Qed.

End InsertionArgsort.

Lemma stable_argsort_sorts : sorts_descending Reference.stable_argsort.
Proof.
  intros keys. apply insertion_argsort_contract; intros ki kj H; lia.
Qed.


(** ** Sorting by the indexer *)

Lemma take_seq {A} (done rows : list A) :
  take (seq (List.length done) (List.length rows)) (done ++ rows) = rows.
Proof.
  revert done. induction rows as [| r rows IH]; intros done; [reflexivity |].
  cbn [List.length seq take flat_map].
  rewrite nth_error_app2, Nat.sub_diag by lia. cbn [nth_error app].
  f_equal.
  specialize (IH (done ++ [r])).
  rewrite length_app, <- app_assoc in IH. cbn [List.length app] in IH.
  rewrite Nat.add_1_r in IH. exact IH.
Qed.

Lemma take_permutation {A} (indexer : list nat) (rows : list A) :
  Permutation indexer (seq 0 (List.length rows)) ->
  Permutation (take indexer rows) rows.
Proof.
  intros H. unfold take.
  rewrite (Permutation_flat_map _ H).
  pose proof (take_seq [] rows) as E. unfold take in E. simpl in E.
  now rewrite E.
Qed.

Lemma take_map_nth {A} (key : A -> Z) (indexer : list nat) (rows : list A) :
  Forall (fun i => i < List.length rows) indexer ->
  map key (take indexer rows)
  = map (fun i => nth i (map key rows) 0%Z) indexer.
Proof.
  induction 1 as [| i indexer Hi _ IH]; [reflexivity |].
  cbn [take flat_map map]. fold (take indexer rows).
  destruct (nth_error_lt rows i Hi) as (r & Hr). rewrite Hr.
  cbn [app map]. rewrite IH. f_equal.
  symmetry. apply nth_error_nth. now apply map_nth_error.
Qed.

Lemma sort_values_N_Logs_spec L rows :
  sorts_descending (argsort_descending L) ->
  Permutation (sort_values_N_Logs L rows) rows /\
  Sorted Z.ge (map a_N_Logs (sort_values_N_Logs L rows)).
Proof.
  intros Hc. destruct (Hc (map a_N_Logs rows)) as (Hp & Hs).
  rewrite length_map in Hp. unfold sort_values_N_Logs. split.
  - now apply take_permutation.
  - rewrite take_map_nth; [exact Hs |].
    apply Forall_forall. intros i Hi.
    apply (Permutation_in _ Hp) in Hi. apply in_seq in Hi. lia.
Qed.

(** ** Groups *)

Lemma unique_In k l : In k (unique l) <-> In k l.
Proof.
  induction l as [| k0 l IH]; [reflexivity |].
  cbn [unique]. simpl. rewrite filter_In, IH, negb_true_iff, String.eqb_neq.
  destruct (string_dec k0 k) as [-> | Hne]; intuition congruence.
Qed.

Lemma unique_NoDup l : NoDup (unique l).
Proof.
  induction l as [| k l IH]; cbn [unique]; constructor.
  - rewrite filter_In, String.eqb_refl. intros (_ & H). discriminate.
  - now apply NoDup_filter.
Qed.

Lemma insert_label_perm k l : Permutation (insert_label k l) (k :: l).
Proof.
  induction l as [| h t IH]; simpl; [reflexivity |].
  destruct (String.leb k h); [reflexivity |].
  rewrite IH. apply perm_swap.
Qed.

Lemma sort_labels_perm l : Permutation (sort_labels l) l.
Proof.
  induction l as [| k l IH]; simpl; [constructor |].
  rewrite insert_label_perm. now constructor.
Qed.

Lemma group_keys_NoDup gdf : NoDup (group_keys gdf).
Proof.
  unfold group_keys.
  apply (Permutation_NoDup (Permutation_sym (sort_labels_perm _))).
  apply unique_NoDup.
Qed.

Lemma group_keys_In gdf k : In k (group_keys gdf) <-> In k (gdf_user_id gdf).
Proof.
  unfold group_keys. split; intros H.
  - apply unique_In. exact (Permutation_in _ (sort_labels_perm _) H).
  - apply unique_In in H.
    exact (Permutation_in _ (Permutation_sym (sort_labels_perm _)) H).
Qed.

Lemma group_of_nonempty {V} (keys : list string) (vals : list V) k :
  In k keys -> List.length keys <= List.length vals ->
  group_of keys vals k <> [].
Proof.
  unfold group_of. revert vals.
  induction keys as [| k0 keys IH]; intros [| v vals] Hin Hlen;
    simpl in *; try contradiction; try lia.
  destruct (String.eqb_spec k0 k) as [-> | Hne]; simpl; [discriminate |].
  destruct Hin as [-> | Hin]; [contradiction |].
  apply IH; [assumption | lia].
Qed.

(** ** The join *)

Lemma filter_unique_key {V} (f : string -> V) ks k :
  NoDup ks -> In k ks ->
  filter (fun r : string * V => String.eqb (fst r) k) (map (fun k' => (k', f k')) ks)
  = [(k, f k)].
Proof.
  induction 1 as [| k0 ks Hnot _ IH]; intros Hin; [contradiction |].
  cbn [map filter fst].
  destruct (String.eqb_spec k0 k) as [-> | Hne].
  - f_equal.
    clear IH Hin. induction ks as [| k1 ks IH]; [reflexivity |].
    cbn [map filter fst].
    destruct (String.eqb_spec k1 k) as [-> | _].
    + exfalso. apply Hnot. now left.
    + apply IH. intros H. apply Hnot. now right.
  - destruct Hin as [-> | Hin]; [contradiction | now apply IH].
Qed.

Lemma merge_unique_right (f : string -> string) ks left :
  NoDup ks ->
  Forall (fun l => In (a_user_id l) ks) left ->
  merge left (map (fun k => (k, f k)) ks) = map (joined f) left.
Proof.
  intros Hnd. induction 1 as [| l left Hl _ IH]; [reflexivity |].
  cbn [merge flat_map map]. fold (merge left (map (fun k => (k, f k)) ks)).
  rewrite IH, (filter_unique_key f ks _ Hnd Hl). reflexivity.
Qed.

Lemma first_device_map gdf :
  List.length (gdf_device_details gdf) = List.length (gdf_user_id gdf) ->
  first_device gdf = map (fun k => (k, first_of gdf k)) (group_keys gdf).
Proof.
  intros Hlen. unfold first_device, groupby. fold (group_keys gdf).
  assert (Hne : forall k, In k (group_keys gdf) ->
            group_of (gdf_user_id gdf) (gdf_device_details gdf) k <> []).
  { intros k Hk. apply group_of_nonempty; [now apply group_keys_In | lia]. }
  unfold first_of.
  induction (group_keys gdf) as [| k ks IH]; [reflexivity |].
  cbn [map flat_map fst snd].
  rewrite IH by (intros k' Hk'; apply Hne; now right).
  specialize (Hne k (or_introl eq_refl)).
  destruct (group_of (gdf_user_id gdf) (gdf_device_details gdf) k);
    [contradiction | reflexivity].
Qed.

Lemma aggregate_keys gdf :
  map a_user_id (aggregate gdf) = group_keys gdf.
Proof.
  unfold aggregate, groupby. fold (group_keys gdf).
  rewrite !map_map. cbn [a_user_id fst]. apply map_id.
Qed.


(** The report is the sorted left table, row by row, each row completed
    by the first device of its user. *)
Lemma summarize_joined L gdf :
  sorts_descending (argsort_descending L) ->
  List.length (gdf_device_details gdf) = List.length (gdf_user_id gdf) ->
  summarize L gdf
  = map (joined (first_of gdf)) (sort_values_N_Logs L (aggregate gdf)).
Proof.
  intros Hc Hlen. unfold summarize. rewrite (first_device_map gdf Hlen).
  apply merge_unique_right; [apply group_keys_NoDup |].
  destruct (sort_values_N_Logs_spec L (aggregate gdf) Hc) as (Hp & _).
  apply Forall_forall. intros l Hl.
  apply (Permutation_in _ Hp) in Hl.
  rewrite <- aggregate_keys. now apply in_map.
Qed.

(** ** The order of the report *)





(* ================================================================== *)
(** * The run, case by case *)




Lemma set_timestamp_aligned {TS TS'} (df : DataFrame TS) (col : list TS') :
  aligned df -> List.length col = List.length (df_timestamp df) ->
  aligned (set_timestamp df col).
Proof.
  intros (H1 & H2 & H3 & H4 & H5) Hc.
  unfold aligned, nrows in *. cbn [set_timestamp df_user_id df_longitude
    df_latitude df_timestamp df_accuracy df_device_details].
  repeat split; congruence.
Qed.

Lemma appended_frames_aligned L debug packets :
  Forall aligned (flat_map (appended L debug) packets).
Proof. apply Forall_flat_map. intros d. apply appended_aligned. Qed.

(** From the frames to the spatial data set, every case. *)
Lemma build_dataset_cases L dfs :
  Forall aligned dfs ->
  (dfs = [] /\
   build_dataset L dfs = raise (ValueError no_objects_to_concatenate)) \/
  (dfs <> [] /\
   exists s, In s (df_timestamp (stacked dfs)) /\ parse_datetime L s = None /\
             build_dataset L dfs
             = ([Print (Comprising (nrows (stacked dfs)))],
                Raise (ValueError (unknown_datetime_string s)))) \/
  (dfs <> [] /\
   exists col,
     Forall2 (fun s v => parse_datetime L s = Some v)
             (df_timestamp (stacked dfs)) col /\
     build_dataset L dfs
     = ([Print (Comprising (nrows (stacked dfs)))],
        Ok (spatial (set_timestamp (stacked dfs) col)))).
Proof.
  intros Hal. destruct dfs as [| df dfs]; [left; split; reflexivity |].
  right. unfold build_dataset.
  rewrite concat_stacked, bind_ret. unfold print. rewrite bind_Ok.
  rewrite to_datetime_checked.
  destruct (traverse_checked_cases (parse_datetime L)
              (fun s => ValueError (unknown_datetime_string s))
              (df_timestamp (stacked (df :: dfs))))
    as [(col & -> & Hf) | (s & Hin & Hnone & ->)].
  - right. split; [discriminate |]. exists col. split; [exact Hf |].
    rewrite bind_ret.
    assert (Hal' : aligned (set_timestamp (stacked (df :: dfs)) col)).
    { apply set_timestamp_aligned; [now apply stacked_aligned |].
      symmetry. exact (Forall2_length Hf). }
    destruct (attach_geometry_Ok _ Hal') as (_ & ->). reflexivity.
  - left. split; [discriminate |]. exists s.
    split; [exact Hin |]. split; [exact Hnone | reflexivity].
Qed.














(* ------------------------------------------------------------------ *)
(** ** A run that ends normally *)





(* ------------------------------------------------------------------ *)
(** ** The columns of the spatial data set *)

Lemma zip_rows_columns {TS} us xs ys (ts : list TS) accs ds :
  List.length xs = List.length us -> List.length ys = List.length us ->
  List.length ts = List.length us -> List.length accs = List.length us ->
  List.length ds = List.length us ->
  map r_user_id (zip_rows us xs ys ts accs ds) = us /\
  map r_longitude (zip_rows us xs ys ts accs ds) = xs /\
  map r_latitude (zip_rows us xs ys ts accs ds) = ys /\
  map r_timestamp (zip_rows us xs ys ts accs ds) = ts /\
  map r_accuracy (zip_rows us xs ys ts accs ds) = accs /\
  map r_device_details (zip_rows us xs ys ts accs ds) = ds.
Proof.
  revert xs ys ts accs ds.
  induction us as [| u us IH];
    intros [| x0 xs] [| y0 ys] [| t ts] [| a accs] [| d ds];
    simpl; intros H1 H2 H3 H4 H5; try discriminate; auto 10.
  destruct (IH xs ys ts accs ds) as (E1 & E2 & E3 & E4 & E5 & E6);
    try congruence.
  rewrite E1, E2, E3, E4, E5, E6. auto 10.
Qed.

Lemma combine_map {A B C} (f : A -> B) (g : A -> C) l :
  combine (map f l) (map g l) = map (fun a => (f a, g a)) l.
Proof. induction l as [| a l IH]; simpl; congruence. Qed.

Lemma Forall2_map_left {A B C} (P : B -> C -> Prop) (f : A -> B) l l' :
  Forall2 P (map f l) l' -> Forall2 (fun a c => P (f a) c) l l'.
Proof.
  revert l'. induction l as [| a l IH]; intros l' H; inversion H; subst;
    constructor; auto.
Qed.

(** The data set that leaves [build_dataset] holds one row per fix of the
    accepted packets, in packet order and in the order of the fixes: the
    user, accuracy and device columns are those of the fixes, the
    timestamp column is the parsed timestamp of each fix, and the
    geometry column is the point of each fix, longitude first.  The row
    count that is printed is the number of these fixes. *)
Theorem spatial_dataset_columns :
  forall L debug packets t dfs t' gdf,
    expand_packets L debug packets [] = (t, Ok dfs) ->
    build_dataset L dfs = (t', Ok gdf) ->
    t' = [Print (Comprising (List.length (flat_map (expansion L debug) packets)))] /\
    gdf_user_id gdf = map r_user_id (flat_map (expansion L debug) packets) /\
    Forall2 (fun r v => parse_datetime L (r_timestamp r) = Some v)
            (flat_map (expansion L debug) packets) (gdf_timestamp gdf) /\
    gdf_accuracy gdf = map r_accuracy (flat_map (expansion L debug) packets) /\
    gdf_device_details gdf
    = map r_device_details (flat_map (expansion L debug) packets) /\
    geometry gdf
    = map (fun r => Point (r_longitude r, r_latitude r))
          (flat_map (expansion L debug) packets) /\
    crs gdf = WGS84.
Proof.
  intros L debug packets t dfs t' gdf Hloop Hb.
  pose proof (expand_packets_Ok L debug packets [] t dfs Hloop) as (Hdfs & _).
  simpl in Hdfs.
  pose proof (appended_frames_aligned L debug packets) as Hal.
  rewrite <- Hdfs in Hal.
  assert (Hrows : flat_map (expansion L debug) packets = records (stacked dfs)).
  { rewrite records_stacked by assumption. subst dfs.
    unfold expansion. now rewrite flat_map_flat_map. }
  pose proof (stacked_aligned dfs Hal) as (A1 & A2 & A3 & A4 & A5).
  destruct (zip_rows_columns (df_user_id (stacked dfs)) (df_longitude (stacked dfs))
              (df_latitude (stacked dfs)) (df_timestamp (stacked dfs))
              (df_accuracy (stacked dfs)) (df_device_details (stacked dfs))
              A1 A2 A3 A4 A5) as (E1 & E2 & E3 & E4 & E5 & E6).
  fold (records (stacked dfs)) in E1, E2, E3, E4, E5, E6.
  rewrite <- Hrows in E1, E2, E3, E4, E5, E6.
  destruct (build_dataset_cases L dfs Hal)
    as [(_ & B) | [(_ & s & _ & _ & B) | (_ & col & Hcol & B)]];
    rewrite B in Hb; inversion Hb; subst t' gdf.
  cbn [spatial set_timestamp gdf_user_id gdf_timestamp gdf_accuracy
       gdf_device_details geometry crs df_user_id df_longitude df_latitude
       df_timestamp df_accuracy df_device_details].
  split.
  { rewrite Hrows, records_length by now apply stacked_aligned. reflexivity. }
  split; [now rewrite E1 |].
  split.
  { apply (Forall2_map_left (fun s v => parse_datetime L s = Some v)
             r_timestamp).
    now rewrite E4. }
  split; [now rewrite E5 |]. split; [now rewrite E6 |].
  split; [| reflexivity].
  rewrite <- E2, <- E3 at 1. rewrite combine_map, map_map. reflexivity.
Qed.

Lemma spatial_dataset_columns_witness :
  exists gdf,
    build_dataset Reference.library
      (flat_map (appended Reference.library false)
         [Example.fixes_of_A; Example.fixes_of_B])
    = ([Print (Comprising 3)], Ok gdf) /\
    gdf_user_id gdf = ["A"; "A"; "B"] /\
    List.length (geometry gdf) = 3.
Proof.
  eexists. split; [vm_compute; reflexivity |].
  destruct (spatial_dataset_columns Reference.library false
              [Example.fixes_of_A; Example.fixes_of_B] [] _ _ _
              ltac:(vm_compute; reflexivity) ltac:(vm_compute; reflexivity))
    as (_ & Hu & _ & _ & _ & Hg & _).
  split; [exact Hu | now rewrite Hg].
Defined.

(* ------------------------------------------------------------------ *)
(** ** Sequences of different lengths, and no fix at all *)

(** A packet that has its six keys and only entries that its coercions
    accept, but whose latitude, timestamp or accuracy sequence has not
    the length of the longitude sequence, is skipped: the frame
    constructor refuses the columns with a [ValueError] that the loop
    catches.  Nothing is raised; with [debug] on the error and the six
    raw values are printed. *)
Theorem mismatched_lengths_are_rejected :
  forall L debug d u lons lats tss accs dev,
    user_id d = Some u -> longitude d = Some lons ->
    latitude d = Some lats -> timestamp d = Some tss ->
    accuracy d = Some accs -> device_details d = Some dev ->
    Forall (fun n => py_float L (replace "," "." n) <> None) lons ->
    Forall (fun n => py_float L (replace "," "." n) <> None) lats ->
    Forall (fun n => py_int L n <> None) accs ->
    List.length lats <> List.length lons \/
    List.length tss <> List.length lons \/
    List.length accs <> List.length lons ->
    expansion L debug d = [] /\
    expand_packet L debug d
    = ((if debug
        then [Print (Error (ValueError arrays_must_be_of_the_same_length));
              Print (Raw (Str u)); Print (Raw (Seq lons));
              Print (Raw (Seq lats)); Print (Raw (Seq tss));
              Print (Raw (Seq accs)); Print (Raw (Str dev)); Print Blank]
        else []),
       Ok None).
Proof.
  intros L debug d u lons lats tss accs dev Hu Hlon Hlat Hts Hacc Hdev
         Fx Fy Fz Hlen.
  destruct (traverse_checked_Ok (float_of L)
    (fun n => ValueError (could_not_convert_string_to_float (replace "," "." n)))
    lons Fx) as (xs & Tx & Hxs).
  destruct (traverse_checked_Ok (float_of L)
    (fun n => ValueError (could_not_convert_string_to_float (replace "," "." n)))
    lats Fy) as (ys & Ty & Hys).
  destruct (traverse_checked_Ok (py_int L)
    (fun n => ValueError (invalid_literal_for_int n)) accs Fz)
    as (zs & Tz & Hzs).
  assert (E : packet_frame L d
              = raise (ValueError arrays_must_be_of_the_same_length)).
  { unfold packet_frame. rewrite Hu, Hlon, Hlat, Hts, Hacc, Hdev.
    unfold getitem. rewrite coerce_coordinate_checked, coerce_accuracy_checked.
    repeat first [rewrite bind_ret | rewrite Tx | rewrite Ty | rewrite Tz].
    destruct (new_DataFrame_cases (repeat u (List.length lons)) xs ys tss zs
                (repeat dev (List.length lons)))
      as [(_ & H1 & H2 & H3 & H4 & H5) | (E & _)]; [| exact E].
    exfalso. apply Forall2_length in Hxs, Hys, Hzs.
    rewrite !repeat_length in *. intuition congruence. }
  assert (Ex : expand_packet L debug d
     = ((if debug
        then [Print (Error (ValueError arrays_must_be_of_the_same_length));
              Print (Raw (Str u)); Print (Raw (Seq lons));
              Print (Raw (Seq lats)); Print (Raw (Seq tss));
              Print (Raw (Seq accs)); Print (Raw (Str dev)); Print Blank]
        else []),
       Ok None)).
  { unfold expand_packet. rewrite E, bind_raise. unfold raise, try_except.
    destruct debug; [| reflexivity].
    rewrite (print_rejected_complete _ d u lons lats tss accs dev)
      by assumption. reflexivity. }
  split; [| exact Ex].
  unfold expansion, appended. rewrite Ex. reflexivity.
Qed.

Lemma mismatched_lengths_are_rejected_witness :
  expansion Reference.library false
    {| user_id := Some "A"; longitude := Some ["-2.23"; "-2.24"];
       latitude := Some ["53.47"]; timestamp := Some ["2022-04-19 16:23:09"];
       accuracy := Some ["5"]; device_details := Some "Pixel 4" |}
  = [] /\
  expand_packet Reference.library false
    {| user_id := Some "A"; longitude := Some ["-2.23"; "-2.24"];
       latitude := Some ["53.47"]; timestamp := Some ["2022-04-19 16:23:09"];
       accuracy := Some ["5"]; device_details := Some "Pixel 4" |}
  = ([], Ok None).
Proof.
  apply (mismatched_lengths_are_rejected Reference.library false
           {| user_id := Some "A"; longitude := Some ["-2.23"; "-2.24"];
              latitude := Some ["53.47"];
              timestamp := Some ["2022-04-19 16:23:09"];
              accuracy := Some ["5"]; device_details := Some "Pixel 4" |}
           "A" ["-2.23"; "-2.24"] ["53.47"] ["2022-04-19 16:23:09"] ["5"]
           "Pixel 4");
    try reflexivity;
    try (repeat constructor; vm_compute; discriminate).
Defined.

(** A packet that has its six keys and four empty sequences is not
    rejected: it is accepted with a frame of no rows.  A document whose
    accepted packets all are of this kind therefore does not stop at
    [concat]: the data set is built, with zero rows and the row count 0
    printed. *)
Theorem packets_without_fixes_are_accepted :
  forall L debug packets,
    packets <> [] ->
    Forall (fun d => exists u dev,
                user_id d = Some u /\ longitude d = Some [] /\
                latitude d = Some [] /\ timestamp d = Some [] /\
                accuracy d = Some [] /\ device_details d = Some dev)
           packets ->
    exists dfs gdf,
      expand_packets L debug packets [] = ([], Ok dfs) /\
      List.length dfs = List.length packets /\
      flat_map (expansion L debug) packets = [] /\
      build_dataset L dfs = ([Print (Comprising 0)], Ok gdf) /\
      gdf_user_id gdf = [] /\ geometry gdf = [].
Proof.
  intros L debug packets Hne Hall.
  assert (Hd : forall d, In d packets ->
             expand_packet L debug d
             = ret (Some {| df_user_id := []; df_longitude := [];
                            df_latitude := []; df_timestamp := [];
                            df_accuracy := []; df_device_details := [] |})).
  { intros d Hin. rewrite Forall_forall in Hall.
    destruct (Hall d Hin) as (u & dev & Hu & Hlon & Hlat & Hts & Hacc & Hdev).
    unfold expand_packet, packet_frame.
    rewrite Hu, Hlon, Hlat, Hts, Hacc, Hdev. reflexivity. }
  assert (Ha : forall d, In d packets ->
             appended L debug d
             = [{| df_user_id := []; df_longitude := [];
                   df_latitude := []; df_timestamp := [];
                   df_accuracy := []; df_device_details := [] |}]).
  { intros d Hin. unfold appended. rewrite (Hd d Hin). reflexivity. }
  exists (flat_map (appended L debug) packets).
  assert (Hloop : expand_packets L debug packets []
                  = ([], Ok (flat_map (appended L debug) packets))).
  { rewrite expand_packets_all_Ok.
    - f_equal. clear Hne Hall Ha. induction packets as [| d rest IH];
        [reflexivity |].
      cbn [flat_map]. rewrite (Hd d (or_introl eq_refl)).
      rewrite IH; [reflexivity |]. intros d' Hd'. apply Hd. now right.
    - apply Forall_forall. intros d Hin. rewrite (Hd d Hin).
      eexists. reflexivity. }
  assert (Hst : stacked (flat_map (appended L debug) packets)
                = {| df_user_id := []; df_longitude := [];
                     df_latitude := []; df_timestamp := [];
                     df_accuracy := []; df_device_details := [] |}).
  { clear Hne Hall Hd Hloop. induction packets as [| d rest IH];
      [reflexivity |].
    cbn [flat_map]. rewrite (Ha d (or_introl eq_refl)).
    change (stacked (flat_map (appended L debug) rest)
            = {| df_user_id := []; df_longitude := [];
                 df_latitude := []; df_timestamp := [];
                 df_accuracy := []; df_device_details := [] |}).
    apply IH. intros d' Hd'. apply Ha. now right. }
  assert (Hlen : List.length (flat_map (appended L debug) packets)
                 = List.length packets).
  { clear Hne Hall Hd Hloop Hst. induction packets as [| d rest IH];
      [reflexivity |].
    cbn [flat_map]. rewrite (Ha d (or_introl eq_refl)).
    cbn [app List.length]. f_equal. apply IH.
    intros d' Hd'. apply Ha. now right. }
  assert (Hrows : flat_map (expansion L debug) packets = []).
  { unfold expansion. rewrite <- flat_map_flat_map.
    rewrite <- records_stacked by apply appended_frames_aligned.
    rewrite Hst. reflexivity. }
  eexists. split; [exact Hloop |]. split; [exact Hlen |].
  split; [exact Hrows |].
  unfold build_dataset.
  destruct (flat_map (appended L debug) packets) as [| df dfs] eqn:E.
  { destruct packets; [contradiction | discriminate Hlen]. }
  rewrite concat_stacked, bind_ret, Hst. cbn. repeat split; reflexivity.
Qed.

Lemma packets_without_fixes_are_accepted_witness :
  exists dfs gdf,
    expand_packets Reference.library true
      [{| user_id := Some "A"; longitude := Some []; latitude := Some [];
          timestamp := Some []; accuracy := Some [];
          device_details := Some "Pixel 4" |}] []
    = ([], Ok dfs) /\
    build_dataset Reference.library dfs = ([Print (Comprising 0)], Ok gdf).
Proof.
  destruct (packets_without_fixes_are_accepted Reference.library true
              [{| user_id := Some "A"; longitude := Some []; latitude := Some [];
                  timestamp := Some []; accuracy := Some [];
                  device_details := Some "Pixel 4" |}])
    as (dfs & gdf & H1 & _ & _ & H2 & _).
  - discriminate.
  - repeat constructor. exists "A", "Pixel 4". repeat split; reflexivity.
  - exists dfs, gdf. split; assumption.
Defined.

(* ------------------------------------------------------------------ *)
(** ** The debug flag *)

Lemma appended_complete L d :
  complete d = true -> appended L true d = appended L false d.
Proof.
  intros Hc. unfold appended.
  destruct (expand_packet_cases L true d)
    as [(df & Ef & _ & E1) | (e & t & Ef & _ & _ & [(E1 & _) | (_ & Hn & _)])];
    [| | rewrite Hc in Hn; discriminate Hn];
    rewrite E1, expand_packet_quiet, Ef; reflexivity.
Qed.

Lemma appended_all_complete L packets :
  Forall (fun d => complete d = true) packets ->
  flat_map (appended L true) packets = flat_map (appended L false) packets.
Proof.
  induction 1 as [| d rest Hd _ IH]; [reflexivity |].
  cbn [flat_map]. now rewrite IH, (appended_complete L d Hd).
Qed.

(** On a document whose packets all have their six keys, [debug] changes
    nothing but the trace: the run ends the same way and prints, reports
    and writes the same things, with the print-outs of the rejected
    packets added after the packet count. *)
Theorem debug_only_adds_printouts :
  forall L W in_path out_path export report packets,
    paths_valid in_path out_path export ->
    open_json W in_path = Some packets ->
    Forall (fun d => complete d = true) packets ->
    exists t rest r,
      forallb diagnostic t = true /\
      parse_data L W in_path out_path export report true
      = (Print (Retrieved (List.length packets)) :: t ++ rest, r) /\
      parse_data L W in_path out_path export report false
      = (Print (Retrieved (List.length packets)) :: rest, r).
Proof.
  intros L W in_path out_path export report packets Hv Ho Hc.
  pose proof (appended_all_complete L packets Hc) as Ha.
  rewrite !(parse_data_loaded L W _ _ _ _ _ packets Hv Ho).
  unfold process_packets.
  rewrite expand_packets_quiet, bind_ret.
  rewrite expand_packets_all_Ok
    by (apply Forall_impl with (2 := Hc); intros d; apply expand_packet_complete).
  rewrite bind_Ok. cbn [app]. rewrite Ha.
  eexists; eexists; eexists. split; [apply expand_packets_diagnostic |].
  split; reflexivity.
Qed.

Lemma debug_only_adds_printouts_witness :
  exists t rest r,
    forallb diagnostic t = true /\
    parse_data Reference.library Example.world "mixed.json" "out.gpkg"
               true true true
    = (Print (Retrieved 3) :: t ++ rest, r) /\
    parse_data Reference.library Example.world "mixed.json" "out.gpkg"
               true true false
    = (Print (Retrieved 3) :: rest, r).
Proof.
  apply (debug_only_adds_printouts Reference.library Example.world
           "mixed.json" "out.gpkg" true true
           [Example.fixes_of_A; Example.bad_latitude; Example.fixes_of_B]).
  - split; reflexivity.
  - reflexivity.
  - repeat constructor.
Defined.

(* ------------------------------------------------------------------ *)
(** ** The two checks come first *)

(** When a check of the paths fails, the run is one message followed by
    [exit(1)], whatever the files, the library and the other flags: the
    input file is not opened.  The input path is checked first: if it
    does not end in [.json] the message is the one about the input,
    also when the output path is wrong as well. *)
Theorem failed_check_reads_no_file :
  forall in_path out_path export,
    ~ paths_valid in_path out_path export ->
    exists msg,
      (forall L W report debug,
          parse_data L W in_path out_path export report debug
          = ([Print (Text msg)], Raise (SystemExit 1))) /\
      (last_chars 5 in_path <> ".json" ->
       msg = "ERROR: Input file must be *.json file") /\
      (last_chars 5 in_path = ".json" ->
       msg = "ERROR: Output file path must be *.gpkg if --export=True").
Proof.
  intros in_path out_path export Hv. unfold paths_valid in Hv.
  destruct (String.eqb_spec (last_chars 5 in_path) ".json") as [Hin | Hin].
  - exists "ERROR: Output file path must be *.gpkg if --export=True".
    split; [| split; [contradiction | reflexivity]].
    intros L W report debug. unfold parse_data, validate_io_paths.
    rewrite Hin. cbn [String.eqb Ascii.eqb Bool.eqb negb].
    destruct export.
    + destruct (String.eqb_spec (last_chars 5 out_path) ".gpkg") as [Ho | Ho].
      * exfalso. apply Hv. split; [exact Hin | intros _; exact Ho].
      * reflexivity.
    + exfalso. apply Hv. split; [exact Hin | discriminate].
  - exists "ERROR: Input file must be *.json file".
    split; [| split; [reflexivity | contradiction]].
    intros L W report debug. unfold parse_data, validate_io_paths.
    destruct (String.eqb_spec (last_chars 5 in_path) ".json");
      [contradiction | reflexivity].
Qed.

Lemma failed_check_reads_no_file_witness :
  exists msg,
    (forall L W report debug,
        parse_data L W "trace.csv" "out.shp" true report debug
        = ([Print (Text msg)], Raise (SystemExit 1))) /\
    msg = "ERROR: Input file must be *.json file".
Proof.
  destruct (failed_check_reads_no_file "trace.csv" "out.shp" true)
    as (msg & H & Hin & _).
  - intros (H & _). discriminate H.
  - exists msg. split; [exact H |]. apply Hin. discriminate.
Defined.

(** With [export] off the output path is never read. *)
Lemma out_path_unread_without_export L W in_path out_path out_path' report debug :
  parse_data L W in_path out_path false report debug
  = parse_data L W in_path out_path' false report debug.
Proof. reflexivity. Qed.

(** Nor is it read when the input path fails its check. *)
Lemma out_path_unread_after_failed_check L W in_path out_path out_path'
    export report debug :
  last_chars 5 in_path <> ".json" ->
  parse_data L W in_path out_path export report debug
  = parse_data L W in_path out_path' export report debug.
Proof.
  intros Hin. unfold parse_data, validate_io_paths.
  destruct (String.eqb_spec (last_chars 5 in_path) ".json");
    [contradiction | reflexivity].
Qed.

(* ------------------------------------------------------------------ *)
(** ** The rows of the report *)

Lemma group_of_In {V} (keys : list string) (vals : list V) k v :
  In v (group_of keys vals k)
  <-> exists i, nth_error keys i = Some k /\ nth_error vals i = Some v.
Proof.
  unfold group_of. revert vals.
  induction keys as [| k0 keys IH]; intros [| v0 vals]; simpl.
  - split; [contradiction | intros ([| i] & H & _); discriminate H].
  - split; [contradiction | intros ([| i] & H & _); discriminate H].
  - split; [contradiction | intros ([| i] & _ & H); discriminate H].
  - destruct (String.eqb_spec k0 k) as [-> | Hne]; simpl.
    + rewrite IH. split.
      * intros [-> | (i & H1 & H2)]; [exists 0; auto | exists (S i); auto].
      * intros ([| i] & H1 & H2); simpl in *.
        -- left. congruence.
        -- right. eauto.
    + rewrite IH. split.
      * intros (i & H1 & H2). exists (S i). auto.
      * intros ([| i] & H1 & H2); simpl in *; [congruence | eauto].
Qed.

Lemma agg_min_lower g n :
  In (Timestamp n) g -> exists a, agg_min g = Timestamp a /\ (a <= n)%Z.
Proof.
  induction g as [| x0 g IH]; [contradiction |].
  intros [-> | Hin]; cbn [agg_min fold_right]; fold (agg_min g).
  - destruct (agg_min g) as [| m]; simpl; eexists; split;
      try reflexivity; lia.
  - destruct (IH Hin) as (a & -> & Ha).
    destruct x0 as [| p]; simpl; eexists; split; try reflexivity; lia.
Qed.

Lemma agg_min_attained g a :
  agg_min g = Timestamp a -> In (Timestamp a) g.
Proof.
  induction g as [| x0 g IH]; [discriminate |].
  cbn [agg_min fold_right]; fold (agg_min g).
  destruct x0 as [| p], (agg_min g) as [| m]; simpl; intros H;
    try discriminate H.
  - right. now apply IH.
  - left. exact H.
  - inversion H as [H1]. clear H. subst a.
    destruct (Z.min_spec p m) as [(_ & E) | (_ & E)]; rewrite E in *.
    + now left.
    + right. apply IH. reflexivity.
Qed.

Lemma agg_max_upper g n :
  In (Timestamp n) g -> exists b, agg_max g = Timestamp b /\ (n <= b)%Z.
Proof.
  induction g as [| x0 g IH]; [contradiction |].
  intros [-> | Hin]; cbn [agg_max fold_right]; fold (agg_max g).
  - destruct (agg_max g) as [| m]; simpl; eexists; split;
      try reflexivity; lia.
  - destruct (IH Hin) as (b & -> & Hb).
    destruct x0 as [| p]; simpl; eexists; split; try reflexivity; lia.
Qed.

Lemma agg_max_attained g b :
  agg_max g = Timestamp b -> In (Timestamp b) g.
Proof.
  induction g as [| x0 g IH]; [discriminate |].
  cbn [agg_max fold_right]; fold (agg_max g).
  destruct x0 as [| p], (agg_max g) as [| m]; simpl; intros H;
    try discriminate H.
  - right. now apply IH.
  - left. exact H.
  - inversion H as [H1]. clear H. subst b.
    destruct (Z.max_spec p m) as [(_ & E) | (_ & E)]; rewrite E in *.
    + right. apply IH. reflexivity.
    + now left.
Qed.

Lemma agg_count_group keys vals k :
  agg_count (group_of keys vals k)
  = Z.of_nat (List.length
                (filter (fun kv => String.eqb (fst kv) k && is_time (snd kv))
                        (combine keys vals))).
Proof.
  unfold agg_count, group_of. f_equal.
  induction (combine keys vals) as [| [k0 v] l IH]; [reflexivity |].
  cbn [filter fst snd]. destruct (String.eqb k0 k); cbn [andb map filter snd].
  - destruct (is_time v); cbn [List.length]; congruence.
  - exact IH.
Qed.

(** The head of a group is the value of the first row of its key. *)
Lemma group_of_first {V} (keys : list string) (vals : list V) k dflt :
  In k keys -> List.length keys <= List.length vals ->
  exists i,
    nth_error keys i = Some k /\
    nth_error vals i = Some (hd dflt (group_of keys vals k)) /\
    forall j, j < i -> nth_error keys j <> Some k.
Proof.
  unfold group_of. revert vals.
  induction keys as [| k0 keys IH]; intros [| v0 vals] Hin Hlen;
    simpl in *; try contradiction; try lia.
  destruct (String.eqb_spec k0 k) as [-> | Hne]; simpl.
  - exists 0. repeat split. intros j Hj. lia.
  - destruct Hin as [-> | Hin]; [contradiction |].
    destruct (IH vals Hin ltac:(lia)) as (i & H1 & H2 & H3).
    exists (S i). repeat split; try assumption.
    intros [| j] Hj; simpl; [congruence | apply H3; lia].
Qed.

Lemma aggregate_In gdf l :
  In l (aggregate gdf) ->
  In (a_user_id l) (gdf_user_id gdf) /\
  a_First_Log l = agg_min (group_of (gdf_user_id gdf) (gdf_timestamp gdf) (a_user_id l)) /\
  a_Last_Log l = agg_max (group_of (gdf_user_id gdf) (gdf_timestamp gdf) (a_user_id l)) /\
  a_N_Logs l = agg_count (group_of (gdf_user_id gdf) (gdf_timestamp gdf) (a_user_id l)).
Proof.
  unfold aggregate, groupby. fold (group_keys gdf). intros Hl.
  apply in_map_iff in Hl. destruct Hl as (kg & <- & Hkg).
  apply in_map_iff in Hkg. destruct Hkg as (k & <- & Hk).
  cbn [a_user_id a_First_Log a_Last_Log a_N_Logs fst snd].
  split; [now apply group_keys_In | repeat split].
Qed.

Lemma summarize_In L gdf r :
  sorts_descending (argsort_descending L) ->
  List.length (gdf_device_details gdf) = List.length (gdf_user_id gdf) ->
  In r (summarize L gdf) ->
  exists l, In l (aggregate gdf) /\ r = joined (first_of gdf) l.
Proof.
  intros Hc Hlen Hr. rewrite (summarize_joined L gdf Hc Hlen) in Hr.
  apply in_map_iff in Hr. destruct Hr as (l & <- & Hl).
  exists l. split; [| reflexivity].
  destruct (sort_values_N_Logs_spec L (aggregate gdf) Hc) as (Hp & _).
  exact (Permutation_in _ Hp Hl).
Qed.

(** The report has exactly one row per user of the data set. *)
Theorem report_lists_each_user_once :
  forall L gdf,
    sorts_descending (argsort_descending L) ->
    List.length (gdf_device_details gdf) = List.length (gdf_user_id gdf) ->
    NoDup (map s_user_id (summarize L gdf)) /\
    (forall u, In u (map s_user_id (summarize L gdf))
               <-> In u (gdf_user_id gdf)) /\
    List.length (summarize L gdf) = List.length (unique (gdf_user_id gdf)).
Proof.
  intros L gdf Hc Hlen.
  destruct (sort_values_N_Logs_spec L (aggregate gdf) Hc) as (Hp & _).
  assert (Hk : Permutation (map s_user_id (summarize L gdf)) (group_keys gdf)).
  { rewrite (summarize_joined L gdf Hc Hlen), map_map. cbn [joined s_user_id].
    rewrite <- aggregate_keys. now apply Permutation_map. }
  split; [| split].
  - apply (Permutation_NoDup (Permutation_sym Hk)). apply group_keys_NoDup.
  - intros u. rewrite <- group_keys_In. split; intros H.
    + exact (Permutation_in _ Hk H).
    + exact (Permutation_in _ (Permutation_sym Hk) H).
  - rewrite <- (length_map s_user_id), (Permutation_length Hk).
    unfold group_keys. apply Permutation_length, sort_labels_perm.
Qed.

Lemma report_lists_each_user_once_witness :
  NoDup (map s_user_id (summarize Reference.library Example.users_ABC)) /\
  List.length (summarize Reference.library Example.users_ABC) = 3.
Proof.
  destruct (report_lists_each_user_once Reference.library Example.users_ABC
              stable_argsort_sorts eq_refl) as (H1 & _ & H2).
  split; [exact H1 | exact H2].
Defined.

(** Every row of the report describes the rows of its user in the data
    set: [N_Logs] is the number of them that have a timestamp,
    [First_Log] and [Last_Log] are the earliest and the latest of these
    timestamps (bounds that are attained), and the device is the
    [device_details] of the user's first row. *)
Theorem report_row_describes_its_user :
  forall L gdf r,
    sorts_descending (argsort_descending L) ->
    List.length (gdf_device_details gdf) = List.length (gdf_user_id gdf) ->
    In r (summarize L gdf) ->
    N_Logs r
    = Z.of_nat (List.length
                  (filter (fun ut => String.eqb (fst ut) (s_user_id r)
                                     && is_time (snd ut))
                          (combine (gdf_user_id gdf) (gdf_timestamp gdf)))) /\
    (forall i n,
        nth_error (gdf_user_id gdf) i = Some (s_user_id r) ->
        nth_error (gdf_timestamp gdf) i = Some (Timestamp n) ->
        exists a b, First_Log r = Timestamp a /\ Last_Log r = Timestamp b /\
                    (a <= n <= b)%Z) /\
    (forall a, First_Log r = Timestamp a ->
               exists i, nth_error (gdf_user_id gdf) i = Some (s_user_id r) /\
                         nth_error (gdf_timestamp gdf) i = Some (Timestamp a)) /\
    (forall b, Last_Log r = Timestamp b ->
               exists i, nth_error (gdf_user_id gdf) i = Some (s_user_id r) /\
                         nth_error (gdf_timestamp gdf) i = Some (Timestamp b)) /\
    (exists i,
        nth_error (gdf_user_id gdf) i = Some (s_user_id r) /\
        nth_error (gdf_device_details gdf) i = Some (s_device_details r) /\
        forall j, j < i -> nth_error (gdf_user_id gdf) j <> Some (s_user_id r)).
Proof.
  intros L gdf r Hc Hlen Hr.
  destruct (summarize_In L gdf r Hc Hlen Hr) as (l & Hl & ->).
  destruct (aggregate_In gdf l Hl) as (Hu & Hmin & Hmax & Hcount).
  cbn [joined N_Logs First_Log Last_Log s_user_id s_device_details].
  split; [rewrite Hcount; apply agg_count_group |].
  split.
  { intros i n Hi Ht.
    assert (Hg : In (Timestamp n)
                    (group_of (gdf_user_id gdf) (gdf_timestamp gdf) (a_user_id l)))
      by (apply group_of_In; eauto).
    destruct (agg_min_lower _ _ Hg) as (a & Ea & Ha).
    destruct (agg_max_upper _ _ Hg) as (b & Eb & Hb).
    exists a, b. rewrite Hmin, Hmax. auto. }
  split.
  { intros a Ha. rewrite Hmin in Ha. apply agg_min_attained in Ha.
    now apply group_of_In in Ha. }
  split.
  { intros b Hb. rewrite Hmax in Hb. apply agg_max_attained in Hb.
    now apply group_of_In in Hb. }
  unfold first_of. apply group_of_first; [exact Hu | lia].
Qed.

Lemma report_row_describes_its_user_witness :
  exists r,
    In r (summarize Reference.library Example.users_ABC) /\
    s_user_id r = "B" /\
    N_Logs r
    = Z.of_nat (List.length
                  (filter (fun ut => String.eqb (fst ut) (s_user_id r)
                                     && is_time (snd ut))
                          (combine (gdf_user_id Example.users_ABC)
                                   (gdf_timestamp Example.users_ABC)))).
Proof.
  exists {| s_user_id := "B"; First_Log := Timestamp 5; Last_Log := Timestamp 16;
            N_Logs := 12; s_device_details := "iPhone 12" |}.
  assert (Hin : In {| s_user_id := "B"; First_Log := Timestamp 5;
                      Last_Log := Timestamp 16; N_Logs := 12;
                      s_device_details := "iPhone 12" |}
                   (summarize Reference.library Example.users_ABC))
    by (vm_compute; auto).
  split; [exact Hin |]. split; [reflexivity |].
  apply (report_row_describes_its_user Reference.library Example.users_ABC _
           stable_argsort_sorts eq_refl Hin).
Defined.

(* ================================================================== *)
(** * The command line *)

Lemma keyword_plain s : plain s -> keyword (Some s) = Some (Value s).
Proof.
  intros (H1 & H2 & H3). unfold keyword.
  apply String.eqb_neq in H1, H2, H3. cbn [existsb].
  now rewrite H1, H2, H3.
Qed.

Lemma keyword_word s :
  lower s = "true" \/ lower s = "false" ->
  keyword (Some s) = Some (Flag (String.eqb (lower s) "true")).
Proof.
  intros H. unfold keyword.
  assert (Hs : String.eqb s "" = false).
  { apply String.eqb_neq. intros ->. destruct H; discriminate. }
  rewrite Hs. cbn [existsb].
  destruct H as [-> | ->]; reflexivity.
Qed.

Lemma or_default_keyword a default :
  or_default (keyword a) default = setting a default.
Proof.
  destruct a as [s |]; [| reflexivity]. unfold keyword, setting.
  destruct (String.eqb_spec s "") as [-> | Hs]; [reflexivity |].
  cbn [existsb].
  destruct (String.eqb_spec (lower s) "true") as [E | _].
  - rewrite E. reflexivity.
  - destruct (String.eqb_spec (lower s) "false") as [E | _]; cbn.
    + reflexivity.
    + apply String.eqb_neq in Hs. now rewrite Hs.
Qed.

(** With paths that stay strings, the script runs [parse_data] on them
    and on three truth values.  A flag that is absent or empty takes the
    default of [parse_data] (export and report on, debug off); the word
    [false], in any letter case, turns it off; every other value turns
    it on, the word [true] and any other word alike.  An absent or empty
    output path is the empty string. *)
Theorem command_line_flags :
  forall L W a,
    plain (arg_in_path a) ->
    (forall o, arg_out_path a = Some o -> o = "" \/ plain o) ->
    main L W a
    = Run (parse_data L W (arg_in_path a)
             (match arg_out_path a with Some o => o | None => "" end)
             (setting (arg_export a) true)
             (setting (arg_report a) true)
             (setting (arg_debug a) false)).
Proof.
  intros L W [i o e r d] Hi Ho. cbn [arg_in_path arg_out_path arg_export
    arg_report arg_debug] in *.
  unfold main, collect, call_parse_data.
  cbn [kw_in_path kw_out_path kw_export kw_report kw_debug arg_in_path
       arg_out_path arg_export arg_report arg_debug].
  rewrite (keyword_plain i Hi), !or_default_keyword.
  destruct o as [o |]; [| reflexivity].
  destruct (Ho o eq_refl) as [-> | Hp]; [reflexivity |].
  now rewrite (keyword_plain o Hp).
Qed.

Lemma command_line_flags_witness :
  main Reference.library Example.world
    {| arg_in_path := "two.json"; arg_out_path := Some "out.gpkg";
       arg_export := Some "no"; arg_report := Some "FALSE";
       arg_debug := Some "1" |}
  = Run (parse_data Reference.library Example.world "two.json" "out.gpkg"
           true false true).
Proof.
  apply (command_line_flags Reference.library Example.world
           {| arg_in_path := "two.json"; arg_out_path := Some "out.gpkg";
              arg_export := Some "no"; arg_report := Some "FALSE";
              arg_debug := Some "1" |}).
  - repeat split; discriminate.
  - intros o' E. inversion E; subst. right. repeat split; discriminate.
Defined.

(** Given the input path alone, the script does not run the conversion:
    export is on by default and the default output path is empty, so a
    path that passes the input check stops at the output check with
    [exit(1)], before the file is opened. *)
Theorem input_path_alone_is_refused :
  forall L W in_path r d,
    plain in_path ->
    last_chars 5 in_path = ".json" ->
    main L W {| arg_in_path := in_path; arg_out_path := None;
                arg_export := None; arg_report := r; arg_debug := d |}
    = Run ([Print (Text "ERROR: Output file path must be *.gpkg if --export=True")],
           Raise (SystemExit 1)).
Proof.
  intros L W in_path r d Hp Hin.
  unfold main, collect, call_parse_data.
  cbn [kw_in_path kw_out_path kw_export kw_report kw_debug arg_in_path
       arg_out_path arg_export arg_report arg_debug].
  rewrite (keyword_plain in_path Hp). cbn [keyword or_default].
  f_equal. unfold parse_data, validate_io_paths. rewrite Hin. reflexivity.
Qed.

Lemma input_path_alone_is_refused_witness :
  main Reference.library Example.world
    {| arg_in_path := "two.json"; arg_out_path := None; arg_export := None;
       arg_report := None; arg_debug := None |}
  = Run ([Print (Text "ERROR: Output file path must be *.gpkg if --export=True")],
         Raise (SystemExit 1)).
Proof.
  apply (input_path_alone_is_refused Reference.library Example.world
           "two.json" None None).
  - repeat split; discriminate.
  - reflexivity.
Defined.

(** A path that spells [true] or [false] reaches [parse_data] as a
    boolean, and slicing it raises [TypeError]: always for the input
    path; for the output path when the input check passes and export is
    on, while otherwise the output path is not read and the run is that
    of any output path.  An empty input path is not passed at all, and
    the call lacks its required argument. *)
Theorem paths_spelling_a_boolean :
  forall L W a,
    (arg_in_path a = "" ->
     main L W a = TypeError (missing_required_argument "in_path")) /\
    (lower (arg_in_path a) = "true" \/ lower (arg_in_path a) = "false" ->
     main L W a = TypeError bool_is_not_subscriptable) /\
    (forall o,
        plain (arg_in_path a) ->
        arg_out_path a = Some o ->
        lower o = "true" \/ lower o = "false" ->
        (last_chars 5 (arg_in_path a) = ".json" ->
         setting (arg_export a) true = true ->
         main L W a = TypeError bool_is_not_subscriptable) /\
        (last_chars 5 (arg_in_path a) <> ".json" \/
         setting (arg_export a) true = false ->
         forall out_path,
           main L W a
           = Run (parse_data L W (arg_in_path a) out_path
                    (setting (arg_export a) true)
                    (setting (arg_report a) true)
                    (setting (arg_debug a) false)))).
Proof.
  intros L W [i o e r d]. cbn [arg_in_path arg_out_path arg_export
    arg_report arg_debug].
  unfold main, collect, call_parse_data.
  cbn [kw_in_path kw_out_path kw_export kw_report kw_debug arg_in_path
       arg_out_path arg_export arg_report arg_debug].
  split; [intros ->; reflexivity |].
  split; [intros H; now rewrite (keyword_word i H) |].
  intros o' Hi -> Ho. rewrite (keyword_plain i Hi), (keyword_word o' Ho).
  rewrite !or_default_keyword. split.
  - intros Hin He. rewrite Hin, He. reflexivity.
  - intros H out_path.
    destruct H as [Hin | He].
    + apply String.eqb_neq in Hin. rewrite Hin. cbn [andb]. f_equal.
      apply out_path_unread_after_failed_check.
      now apply String.eqb_neq.
    + rewrite He, andb_false_r. reflexivity.
Qed.

Lemma paths_spelling_a_boolean_witness :
  main Reference.library Example.world
    {| arg_in_path := "two.json"; arg_out_path := Some "True";
       arg_export := None; arg_report := None; arg_debug := None |}
  = TypeError bool_is_not_subscriptable.
Proof.
  refine (proj1 (proj2 (proj2
    (paths_spelling_a_boolean Reference.library Example.world
       {| arg_in_path := "two.json"; arg_out_path := Some "True";
          arg_export := None; arg_report := None; arg_debug := None |}))
    "True" _ eq_refl _) eq_refl eq_refl).
  - repeat split; discriminate.
  - left. reflexivity.
Defined.
